(** * Clipster: the clipboard-history daemon of [src/clipster.py]

    A shallow embedding of [Clipster.Daemon]: its history dictionary
    ([self.boards]), the handlers the event loop calls ([owner_change],
    [socket_listen], [exit]) and the start-up sequence ([prepare_files]),
    over an explicit model of what they touch: the files of the daemon, the
    process table probed with [os.kill(pid, 0)], the accepted connection and
    the Gtk objects the daemon writes to.

    Python strings are kept as their UTF-8 encoding ([string] is a sequence
    of bytes): equality, [in], [list.remove] and a split on the ASCII
    character [":"] agree on both readings.  Exceptions follow Python 3,
    where [IOError] and [socket.error] are names of [OSError]. *)

From Stdlib Require Import ZArith Ascii String List Lia.
From stdpp Require Import base option list gmap strings pretty fin_maps.

Local Open Scope Z_scope.

(** ** Python values and exceptions *)

Module Py.

Inductive errno :=
  ENOENT | EEXIST | EACCES | EISDIR | ENXIO | ESRCH | EPERM | EADDRINUSE.

Inductive exn :=
| KeyError (key : string)
| ValueError
| UnicodeDecodeError
| AttributeError
| OSError (e : errno)
| OverflowError
| SystemExit (code : Z).

Inductive result (A : Type) :=
| Ok (a : A)
| Raise (e : exn).
Global Arguments Ok {A} a.
Global Arguments Raise {A} e.

(** [x in l] on a list of strings. *)
Definition contains (x : string) (l : list string) : bool :=
  bool_decide (x ∈ l).

(** [l.remove(x)]: drops the first element equal to [x]; Python raises
    [ValueError] when there is none. *)
Fixpoint remove (x : string) (l : list string) : option (list string) :=
  match l with
  | [] => None
  | y :: l' =>
      if decide (y = x) then Some l'
      else match remove x l' with
           | Some r => Some (y :: r)
           | None => None
           end
  end.

(** One cut of [s.split(sep, ...)], at the first [sep]: the text before it
    and the text after it, or [None] when [s] has no [sep]. *)
Fixpoint partition (sep : ascii) (s : string) : option (string * string) :=
  match s with
  | EmptyString => None
  | String c s' =>
      if decide (c = sep) then Some (EmptyString, s')
      else match partition sep s' with
           | Some (a, b) => Some (String c a, b)
           | None => None
           end
  end.

(** [s.split(sep, maxsplit)] for a one-character separator: at most
    [maxsplit] cuts, from the left; the rest of the string is the last
    element, whatever it holds. *)
Fixpoint split (sep : ascii) (maxsplit : nat) (s : string) : list string :=
  match maxsplit with
  | O => [s]
  | S n =>
      match partition sep s with
      | Some (a, b) => a :: split sep n b
      | None => [s]
      end
  end.

(** [a, b, c = l]: unpacking into three names raises [ValueError] unless the
    list has exactly three elements. *)
Definition unpack3 (l : list string) : result (string * string * string) :=
  match l with
  | [a; b; c] => Ok (a, b, c)
  | _ => Raise ValueError
  end.

(** [''.join(l)]. *)
Definition join (l : list string) : string :=
  foldr String.append EmptyString l.

(** [s.lower()] on the ASCII letters; the other bytes stay.  The only use
    made of it is the comparison of the result with the attribute names
    [primary] and [clipboard], and there the byte-wise function agrees with
    Python's: a character outside ASCII lowers to characters outside ASCII,
    but for U+212A (to [k], which neither name has) and U+0130 (to [i] and
    U+0307). *)
Definition lower_ascii (c : ascii) : ascii :=
  let n := nat_of_ascii c in
  if (Nat.leb 65 n && Nat.leb n 90)%bool then ascii_of_nat (n + 32) else c.

Fixpoint lower (s : string) : string :=
  match s with
  | EmptyString => EmptyString
  | String c s' => String (lower_ascii c) (lower s')
  end.

(** The truth value of [text] in [if text:], for [text] a string or [None]. *)
Definition truthy (text : option string) : bool :=
  match text with
  | Some (String _ _) => true
  | _ => false
  end.

(** Number of occurrences of a character in a string. *)
Fixpoint count (c : ascii) (s : string) : nat :=
  match s with
  | EmptyString => O
  | String d s' => ((if decide (d = c) then 1 else 0) + count c s')%nat
  end.

(** [int(s)] on the decimal texts a PID file holds: blanks around an optional
    sign and at least one digit.  Any other text raises [ValueError] here
    (Python also reads digit groups joined by [_] and non-ASCII digits and
    spaces; a PID file written by [prepare_files] has none). *)
Definition is_space (c : ascii) : bool :=
  let n := nat_of_ascii c in
  (Nat.leb 9 n && Nat.leb n 13 || Nat.eqb n 32)%bool.

Definition is_digit (c : ascii) : bool :=
  let n := nat_of_ascii c in (Nat.leb 48 n && Nat.leb n 57)%bool.

Fixpoint lstrip (s : string) : string :=
  match s with
  | String c s' => if is_space c then lstrip s' else s
  | EmptyString => EmptyString
  end.

(** [rstrip s]: [s] without its trailing blanks. *)
Fixpoint rstrip (s : string) : string :=
  match s with
  | EmptyString => EmptyString
  | String c s' =>
      match rstrip s' with
      | EmptyString => if is_space c then EmptyString else String c EmptyString
      | r => String c r
      end
  end.

Fixpoint digits (acc : Z) (s : string) : option Z :=
  match s with
  | EmptyString => Some acc
  | String c s' =>
      if is_digit c
      then digits (10 * acc + (Z.of_nat (nat_of_ascii c) - 48)) s'
      else None
  end.

Definition unsigned (s : string) : option Z :=
  match s with
  | EmptyString => None
  | _ => digits 0 s
  end.

Definition py_int (s : string) : result Z :=
  let t := rstrip (lstrip s) in
  let r := match t with
           | String "-" t' => Z.opp <$> unsigned t'
           | String "+" t' => unsigned t'
           | _ => unsigned t
           end in
  match r with
  | Some z => Ok z
  | None => Raise ValueError
  end.

(** [b.decode('utf-8')]: the bytes are kept as they are when they are
    well-formed UTF-8 (Unicode 3.9, table 3-7: no overlong form, no
    surrogate, nothing above U+10FFFF), and [UnicodeDecodeError] is raised
    otherwise. *)
Definition in_range (lo hi : nat) (c : ascii) : bool :=
  let n := nat_of_ascii c in (Nat.leb lo n && Nat.leb n hi)%bool.

Fixpoint utf8_ok (s : string) : bool :=
  match s with
  | EmptyString => true
  | String c0 s1 =>
      if in_range 0 127 c0 then utf8_ok s1
      else
        match s1 with
        | EmptyString => false
        | String c1 s2 =>
            if in_range 194 223 c0 then in_range 128 191 c1 && utf8_ok s2
            else
              match s2 with
              | EmptyString => false
              | String c2 s3 =>
                  if in_range 224 239 c0 then
                    (if in_range 224 224 c0 then in_range 160 191 c1
                     else if in_range 237 237 c0 then in_range 128 159 c1
                     else in_range 128 191 c1)
                    && in_range 128 191 c2 && utf8_ok s3
                  else
                    match s3 with
                    | EmptyString => false
                    | String c3 s4 =>
                        in_range 240 244 c0
                        && (if in_range 240 240 c0 then in_range 144 191 c1
                            else if in_range 244 244 c0 then in_range 128 143 c1
                            else in_range 128 191 c1)
                        && in_range 128 191 c2 && in_range 128 191 c3
                        && utf8_ok s4
                    end
              end
        end
  end.

Definition decode_utf8 (b : string) : result string :=
  if utf8_ok b then Ok b else Raise UnicodeDecodeError.

End Py.

Import Py.

(** ** The daemon and what it touches *)

(** What a path of the file system holds.  The history file is a JSON
    document; [json.dump] and [json.load] are the standard library's, and a
    document is kept as the value they write and read back: a mapping from
    names to arrays of strings. *)
Inductive file :=
| FText (s : string)
| FJson (doc : gmap string (list string))
| FSocket
| FDir.

(** What [print] is given. *)
Inductive printed :=
| PStr (s : string)
| PList (l : list string).

(** What the daemon does to the outside, in the order it does it: calls
    to the system, closing the accepted connection, printing. *)
Inductive event :=
| SysOpenR (path : string)
| SysOpenW (path : string)
| SysUnlink (path : string)
| SysMakedirs (path : string)
| SysKill (pid : Z)
| SysBind (path : string)
| SysListen (backlog : Z)
| ConnClose
| Print (v : printed).

Global Instance errno_eq_dec : EqDecision errno.
Proof. solve_decision. Defined.

(** The [clipster] section of the configuration, as [Daemon.__init__] and
    [prepare_files] read it. *)
Record config := {
  sock_file : string;
  hist_file : string;
  pid_file : string;
  clipster_dir : string;
  max_input : Z
}.

(** A Gtk window: the [POPUP] window of [run], or the dialog that
    [selection_widget] builds, with the rows of its [ListStore] from top to
    bottom. *)
Record gtk_window := {
  title : string;
  column : string;
  rows : list string;
  board_of : option string;
  shown : bool
}.

(** The socket object [self.sock_s]. *)
Record socket := {
  bound : option string;
  listening : bool
}.

(** The attributes of a [Daemon] that its methods assign or mutate.  Of the
    two Gtk clipboards, [primary] and [clipboard], the text last given to
    [set_text] is kept. *)
Record daemon := {
  boards : gmap string (list string);
  window : option gtk_window;
  primary : option string;
  clipboard : option string;
  sock_s : option socket
}.

(** A process that is there, as the system answers a probe by the daemon's
    process: one it may signal (its user's own, or any for root), or one it
    may not. *)
Inductive process := Own | Foreign.

(** The machine around it: files by path, the paths on which the system
    refuses an operation ([EACCES]), the processes that are there, by the
    argument [os.kill] is given (a process id, or zero or a negative number
    for the process group it stands for), the daemon's own process id and
    the calls made so far. *)
Record world := {
  files : gmap string file;
  denied : gset string;
  procs : gmap Z process;
  getpid : Z;
  trace : list event
}.

Record state := {
  self : daemon;
  os : world
}.

Definition set_boards (b : gmap string (list string)) (d : daemon) : daemon :=
  {| boards := b; window := window d; primary := primary d;
     clipboard := clipboard d; sock_s := sock_s d |}.
Definition set_window (w : option gtk_window) (d : daemon) : daemon :=
  {| boards := boards d; window := w; primary := primary d;
     clipboard := clipboard d; sock_s := sock_s d |}.
Definition set_primary (t : option string) (d : daemon) : daemon :=
  {| boards := boards d; window := window d; primary := t;
     clipboard := clipboard d; sock_s := sock_s d |}.
Definition set_clipboard (t : option string) (d : daemon) : daemon :=
  {| boards := boards d; window := window d; primary := primary d;
     clipboard := t; sock_s := sock_s d |}.
Definition set_sock_s (k : option socket) (d : daemon) : daemon :=
  {| boards := boards d; window := window d; primary := primary d;
     clipboard := clipboard d; sock_s := k |}.
Definition set_files (f : gmap string file) (w : world) : world :=
  {| files := f; denied := denied w; procs := procs w; getpid := getpid w;
     trace := trace w |}.
Definition set_trace (t : list event) (w : world) : world :=
  {| files := files w; denied := denied w; procs := procs w;
     getpid := getpid w; trace := t |}.

(** [Daemon.__init__]: both histories empty, nothing else set up yet. *)
Definition init_boards : gmap string (list string) :=
  <["PRIMARY" := []]> (<["CLIPBOARD" := []]> ∅).

Definition init_daemon : daemon :=
  {| boards := init_boards; window := None; primary := None;
     clipboard := None; sock_s := None |}.

(** ** Methods as state transformers that may raise *)

Definition M (A : Type) : Type := state → result A * state.

Definition ret {A} (a : A) : M A := λ st, (Ok a, st).

Definition bind {A B} (m : M A) (k : A → M B) : M B :=
  λ st, match m st with
        | (Ok a, st') => k a st'
        | (Raise e, st') => (Raise e, st')
        end.

Definition raise {A} (e : exn) : M A := λ st, (Raise e, st).

(** [try: m  except ...: h]: [h e] is the handler of the first [except]
    clause that matches [e], or [None] when none does. *)
Definition try_except {A} (m : M A) (h : exn → option (M A)) : M A :=
  λ st, match m st with
        | (Ok a, st') => (Ok a, st')
        | (Raise e, st') =>
            match h e with
            | Some k => k st'
            | None => (Raise e, st')
            end
        end.

Definition lift {A} (r : result A) : M A := λ st, (r, st).

(** The monad's operations under stdpp's notations: [x ← m; k] and
    [m ;; k]. *)
Global Instance M_ret : MRet M := @ret.
Global Instance M_bind : MBind M := λ A B k m, bind m k.

(** [except OSError:] and the like, whatever the [errno]: in both
    [except IOError as exc: if exc.errno == errno.ENOENT: pass] forms without
    an [else] the exception is dropped for every [errno]. *)
Definition on_OSError {A} (k : errno → M A) (e : exn) : option (M A) :=
  match e with
  | OSError en => Some (k en)
  | _ => None
  end.

Definition get_self : M daemon := λ st, (Ok (self st), st).
Definition get_os : M world := λ st, (Ok (os st), st).
Definition modify_self (f : daemon → daemon) : M unit :=
  λ st, (Ok tt, {| self := f (self st); os := os st |}).
Definition modify_os (f : world → world) : M unit :=
  λ st, (Ok tt, {| self := self st; os := f (os st) |}).

Definition emit (e : event) : M unit :=
  modify_os (λ w, set_trace (trace w ++ [e]) w).

Definition print (v : printed) : M unit := emit (Print v).

Definition sys_exit {A} (code : Z) : M A := raise (SystemExit code).

(** ** System calls *)

Definition guard_denied (path : string) : M unit :=
  w ← get_os;
  if decide (path ∈ denied w) then raise (OSError EACCES) else ret tt.

Definition put_file (path : string) (f : file) : M unit :=
  modify_os (λ w, set_files (<[path := f]> (files w)) w).

(** [open(path, 'r')] and reading the whole file. *)
Definition open_r (path : string) : M file :=
  emit (SysOpenR path);;
  guard_denied path;;
  w ← get_os;
  match files w !! path with
  | None => raise (OSError ENOENT)
  | Some FDir => raise (OSError EISDIR)
  | Some FSocket => raise (OSError ENXIO)
  | Some f => ret f
  end.

(** [open(path, 'w')] and writing [content] as the whole file. *)
Definition open_w (path : string) (content : file) : M unit :=
  emit (SysOpenW path);;
  guard_denied path;;
  w ← get_os;
  match files w !! path with
  | Some FDir => raise (OSError EISDIR)
  | Some FSocket => raise (OSError ENXIO)
  | _ => put_file path content
  end.

(** [os.unlink(path)]. *)
Definition unlink (path : string) : M unit :=
  emit (SysUnlink path);;
  guard_denied path;;
  w ← get_os;
  match files w !! path with
  | None => raise (OSError ENOENT)
  | Some FDir => raise (OSError EISDIR)
  | Some _ => modify_os (λ w, set_files (delete path (files w)) w)
  end.

(** [os.makedirs(path)]. *)
Definition makedirs (path : string) : M unit :=
  emit (SysMakedirs path);;
  guard_denied path;;
  w ← get_os;
  match files w !! path with
  | Some _ => raise (OSError EEXIST)
  | None => put_file path FDir
  end.

(** [pid] fits the C [int] that [os.kill] converts it to. *)
Definition c_int (pid : Z) : bool :=
  (-2147483648 <=? pid) && (pid <=? 2147483647).

(** [os.kill(pid, 0)]: sends nothing.  It raises [OverflowError] before any
    call when [pid] does not fit a C [int], [OSError] with [ESRCH] when no
    process is there, and [OSError] with [EPERM] when one is there that the
    daemon may not signal. *)
Definition kill0 (pid : Z) : M unit :=
  if c_int pid then
    emit (SysKill pid);;
    w ← get_os;
    match procs w !! pid with
    | Some Own => ret tt
    | Some Foreign => raise (OSError EPERM)
    | None => raise (OSError ESRCH)
    end
  else raise OverflowError.

(** [sock.bind(path)] on a Unix socket creates the socket file. *)
Definition sock_bind (path : string) : M unit :=
  emit (SysBind path);;
  guard_denied path;;
  w ← get_os;
  match files w !! path with
  | Some _ => raise (OSError EADDRINUSE)
  | None =>
      put_file path FSocket;;
      modify_self (set_sock_s (Some {| bound := Some path; listening := false |}))
  end.

Definition sock_listen (backlog : Z) : M unit :=
  emit (SysListen backlog);;
  modify_self (λ d,
    set_sock_s (match sock_s d with
                | Some k => Some {| bound := bound k; listening := true |}
                | None => None
                end) d).

(** What one [conn.recv(8192)] gives: some bytes, no byte when the peer has
    closed, or [socket.error]. *)
Inductive recv :=
| Data (bytes : string)
| Fail.

(** The two clipboard selections, and the names [str(event.selection)] and
    the keys of [self.boards] give them. *)
Inductive Selection := PRIMARY | CLIPBOARD.

Definition selection_name (s : Selection) : string :=
  match s with
  | PRIMARY => "PRIMARY"
  | CLIPBOARD => "CLIPBOARD"
  end.

(** The two actions a client sends, [client_action] in [main]. *)
Inductive Action := BOARD | SELECT.

Definition action_name (a : Action) : string :=
  match a with
  | BOARD => "BOARD"
  | SELECT => "SELECT"
  end.

(** The message [Clipster.client] builds:
    ["{0}:{1}:{2}".format(client_action, default_selection, stdin)]. *)
Definition client_message (client_action default_selection stdin : string)
  : string :=
  client_action +:+ ":" +:+ default_selection +:+ ":" +:+ stdin.

(** [d.update(other)]: every key of [other] is set to [other]'s value, and
    the other keys of [d] stay. *)
Definition dict_update (other d : gmap string (list string))
  : gmap string (list string) :=
  other ∪ d.

(** [json.load] of a file's content.  For a text file the answer given
    here, [ValueError], is Python's when the text is not JSON; a text that is
    JSON of another shape is not followed further, and no statement below
    has a text file where the history file is read. *)
Definition json_load (f : file) : M (gmap string (list string)) :=
  match f with
  | FJson doc => ret doc
  | _ => raise ValueError
  end.

(** [for item in l[::-1]: model.append([item])]. *)
Definition fill_model (l : list string) : list string :=
  foldl (λ model item, model ++ [item]) [] (reverse l).

(** [sig, board, content = sent.split(':', 2)]. *)
Definition decode (sent : string) : result (string * string * string) :=
  unpack3 (split ":" 2 sent).

(** The receive loop of [socket_listen]: [data] and [recv_total] are the
    loop's variables, [incoming] what the calls of [conn.recv] give one after
    the other; once it is used up nothing more is pending and [recv] raises
    [socket.error], the socket being non-blocking. *)
Fixpoint recv_loop (max_input : Z) (incoming : list recv)
    (data : list string) (recv_total : Z) : result (list string) :=
  match incoming with
  | [] => Ok data
  | Fail :: _ => Ok data
  | Data EmptyString :: _ => Ok data
  | Data b :: rest =>
      match decode_utf8 b with
      | Raise e => Raise e
      | Ok text =>
          let data := data ++ [text] in
          let recv_total := recv_total + Z.of_nat (String.length b) in
          if recv_total >? max_input then Ok data
          else recv_loop max_input rest data recv_total
      end
  end.

(** ** [Clipster.Daemon] *)

Section Daemon.

Variable cfg : config.

(** [self.boards[board]]. *)
Definition getitem_boards (board : string) : M (list string) :=
  d ← get_self;
  match boards d !! board with
  | Some l => ret l
  | None => raise (KeyError board)
  end.

(** [selection_widget]: a new dialog takes the place of [self.window], is
    filled with the history of [board] read backwards, and is shown. *)
Definition selection_widget (board : string) : M unit :=
  modify_self (set_window (Some {| title := "Clipster"; column := "";
                                   rows := []; board_of := None;
                                   shown := false |}));;
  l ← getitem_boards board;
  modify_self (set_window (Some {| title := "Clipster";
                                   column := board +:+ " clipboard:";
                                   rows := fill_model l;
                                   board_of := Some board;
                                   shown := true |})).

(** [read_history_file]. *)
Definition read_history_file : M unit :=
  try_except
    (f ← open_r (hist_file cfg);
     doc ← json_load f;
     modify_self (λ d, set_boards (dict_update doc (boards d)) d))
    (on_OSError (λ _, ret tt)).

(** [write_history_file]. *)
Definition write_history_file : M unit :=
  d ← get_self;
  open_w (hist_file cfg) (FJson (boards d)).

(** [update_board]: [getattr(self, board.lower()).set_text(data, -1)].  The
    two clipboard objects are the only attributes of a daemon that have a
    [set_text]. *)
Definition update_board (board data : string) : M unit :=
  if decide (lower board = "primary") then modify_self (set_primary (Some data))
  else if decide (lower board = "clipboard")
       then modify_self (set_clipboard (Some data))
       else raise AttributeError.

(** [update_history]. *)
Definition update_history (board text : string) : M unit :=
  l ← getitem_boards board;
  l ← (if contains text l
        then match remove text l with
             | Some r => ret r
             | None => raise ValueError
             end
        else ret l);
  let l := l ++ [text] in
  modify_self (λ d, set_boards (<[board := l]> (boards d)) d);;
  print (PList l).

(** [owner_change], from the point where the clipboard is read: [selection]
    is [str(event.selection)] and [text] what [board.wait_for_text()]
    returned.  (Blocking the handler and waiting for the mouse button to be
    released touch nothing of the daemon.) *)
Definition owner_change (selection : string) (text : option string)
  : M (option string) :=
  (if truthy text
   then match text with
        | Some t => update_history selection t
        | None => ret tt
        end
   else ret tt);;
  ret text.

(** [socket_listen], once the connection is accepted. *)
Definition socket_listen (incoming : list recv) : M bool :=
  data ← lift (recv_loop (max_input cfg) incoming [] 0);
  (match data with
   | [] => ret tt
   | _ =>
       let sent := join data in
       '(sig, board, content) ← lift (decode sent);
       if decide (sig = "SELECT") then selection_widget board
       else if decide (sig = "BOARD")
            then match content with
                 | EmptyString => ret tt
                 | _ => update_board board content
                 end
            else ret tt
   end);;
  emit ConnClose;;
  ret true.

(** The first block of [prepare_files]: the check of an existing PID file. *)
Definition check_pid_file : M unit :=
  try_except
    (f ← open_r (pid_file cfg);
     pid ← match f with
           | FText s => lift (py_int s)
           | _ => raise ValueError
           end;
     try_except
       (kill0 pid;;
        print (PStr ("Daemon already running: pid " +:+ pretty pid));;
        sys_exit 1)
       (on_OSError (λ _,
          try_except (unlink (pid_file cfg))
            (on_OSError (λ en,
               if decide (en = ENOENT) then ret tt
               else raise (OSError en))))))
    (on_OSError (λ _, ret tt)).

(** [prepare_files]. *)
Definition prepare_files : M unit :=
  check_pid_file;;
  w ← get_os;
  open_w (pid_file cfg) (FText (pretty (getpid w)));;
  try_except (makedirs (clipster_dir cfg)) (on_OSError (λ _, ret tt));;
  read_history_file;;
  try_except (unlink (sock_file cfg)) (on_OSError (λ _, ret tt));;
  modify_self (set_sock_s (Some {| bound := None; listening := false |}));;
  sock_bind (sock_file cfg);;
  sock_listen 5.

(** [exit]. *)
Definition exit : M unit :=
  try_except (unlink (sock_file cfg))
    (on_OSError (λ _,
       print (PStr ("Warning: Failed to remove socket file: "
                    +:+ sock_file cfg))));;
  try_except (unlink (pid_file cfg))
    (on_OSError (λ _,
       print (PStr ("Warning: Failed to remove run file: "
                    +:+ pid_file cfg))));;
  write_history_file;;
  sys_exit 0.

(** The spec's [record(selection, text)]: what a change of owner of
    [selection] does to the history when the clipboard holds [text]. *)
Definition record (s : Selection) (text : string) : M unit :=
  owner_change (selection_name s) (Some text);; ret tt.

(** A finite sequence of [record] calls, as the event loop makes them one
    after the other. *)
Fixpoint records (calls : list (Selection * string)) : M unit :=
  match calls with
  | [] => ret tt
  | (s, text) :: calls => record s text;; records calls
  end.

End Daemon.

(** ** [main], on the client's side *)

(** The flags of the command line that decide what the client sends.  (With
    [--daemon], [main] calls [Daemon.run] first, which it leaves through
    [sys.exit] or an exception.) *)
Record args := {
  opt_primary : bool;
  opt_clipboard : bool;
  opt_select : bool
}.

(** The message [main] has [Clipster.client] send: [configured] is the
    [default_selection] the configuration gives, which [--primary] and
    [--clipboard] overwrite in the configuration object before the client
    reads it, and [stdin] what was read from standard input. *)
Definition main_message (configured : string) (a : args) (stdin : string)
  : string :=
  let client_action := if opt_select a then "SELECT" else "BOARD" in
  let default_selection :=
    if opt_primary a then "PRIMARY"
    else if opt_clipboard a then "CLIPBOARD"
    else configured in
  client_message client_action default_selection stdin.

(** ** Notions the statements use *)

(** [l] without its first [x], if it has one. *)
Fixpoint drop_first (x : string) (l : list string) : list string :=
  match l with
  | [] => []
  | y :: l' => if decide (y = x) then l' else y :: drop_first x l'
  end.

(** Every history is free of duplicates. *)
Definition duplicate_free (b : gmap string (list string)) : Prop :=
  map_Forall (λ _ l, NoDup l) b.

Global Instance duplicate_free_dec b : Decision (duplicate_free b).
Proof. unfold duplicate_free. apply _. Defined.

(** Both selections have a history, as they have from [Daemon.__init__] on. *)
Definition has_selections (b : gmap string (list string)) : Prop :=
  ∀ s, is_Some (b !! selection_name s).


(** [path] can be opened for reading and writing as a regular file, if it
    exists: the system does not refuse it and it is neither a directory nor
    a socket. *)
Definition regular (w : world) (path : string) : Prop :=
  (path ∉ denied w)
  ∧ (files w !! path ≠ Some FDir)
  ∧ (files w !! path ≠ Some FSocket).

(** [st] after [conn.close()]. *)
Definition closed (st : state) : state :=
  {| self := self st; os := set_trace (trace (os st) ++ [ConnClose]) (os st) |}.

(** [st] with the daemon object changed by [f]. *)
Definition with_self (f : daemon → daemon) (st : state) : state :=
  {| self := f (self st); os := os st |}.

(** The dialog [selection_widget] has made before it looks up the board. *)
Definition empty_dialog : gtk_window :=
  {| title := "Clipster"; column := ""; rows := []; board_of := None;
     shown := false |}.

(** Every character of [s] passes [p]. *)
Fixpoint all_chars (p : ascii → bool) (s : string) : bool :=
  match s with
  | EmptyString => true
  | String c s' => p c && all_chars p s'
  end.

(** The machine as another process sees it: its own process id, the
    processes as the system answers its probes, and a trace of its own. *)
Definition as_process (pid : Z) (table : gmap Z process) (w : world) : world :=
  {| files := files w; denied := denied w; procs := table; getpid := pid;
     trace := [] |}.

(** [path] names an entry of the directory [dir]: [dir], a slash and a name
    without a slash. *)
Definition entry_of (dir path : string) : Prop :=
  ∃ name, name ≠ "" ∧ count "/" name = 0%nat ∧ path = dir +:+ "/" +:+ name.

(** The three files are entries of [clipster_dir], where the defaults of
    [main] put them, and that directory is there. *)
Definition in_clipster_dir (cfg : config) (w : world) : Prop :=
  files w !! clipster_dir cfg = Some FDir
  ∧ entry_of (clipster_dir cfg) (pid_file cfg)
  ∧ entry_of (clipster_dir cfg) (hist_file cfg)
  ∧ entry_of (clipster_dir cfg) (sock_file cfg).

(** What [prepare_files] needs of the machine, the PID file apart: the four
    paths of the configuration are different paths, the system refuses none
    of the three files, the history file is absent or a JSON document, and no
    directory is in the place of the socket file. *)
Definition can_start (cfg : config) (w : world) : Prop :=
  NoDup [pid_file cfg; hist_file cfg; sock_file cfg; clipster_dir cfg]
  ∧ (pid_file cfg ∉ denied w)
  ∧ (hist_file cfg ∉ denied w)
  ∧ (sock_file cfg ∉ denied w)
  ∧ (files w !! hist_file cfg = None
     ∨ ∃ snap, files w !! hist_file cfg = Some (FJson snap))
  ∧ (files w !! sock_file cfg ≠ Some FDir).

(** The histories after loading what the history file of [w] holds. *)
Definition loaded (cfg : config) (w : world) (b : gmap string (list string))
  : gmap string (list string) :=
  match files w !! hist_file cfg with
  | Some (FJson snap) => dict_update snap b
  | _ => b
  end.

(** The daemon of [st] has started and [st'] is what it has reached: the PID
    file holds its process id, the socket file is there and the daemon's
    socket is bound to it and listening, the history file is as it was and
    its content is merged into the histories; what the system refuses and
    the processes there are have not changed. *)
Definition started (cfg : config) (st st' : state) : Prop :=
  files (os st') !! pid_file cfg = Some (FText (pretty (getpid (os st))))
  ∧ files (os st') !! sock_file cfg = Some FSocket
  ∧ files (os st') !! hist_file cfg = files (os st) !! hist_file cfg
  ∧ sock_s (self st')
    = Some {| bound := Some (sock_file cfg); listening := true |}
  ∧ boards (self st') = loaded cfg (os st) (boards (self st))
  ∧ denied (os st') = denied (os st)
  ∧ procs (os st') = procs (os st)
  ∧ getpid (os st') = getpid (os st).

(** The calls to the system in a trace, what is printed left out. *)
Definition is_syscall (e : event) : bool :=
  match e with
  | Print _ => false
  | _ => true
  end.

Definition syscalls (tr : list event) : list event :=
  filter (λ e, is_syscall e = true) tr.

(** In [tr], some [e1] comes before some [e2]. *)
Definition precedes (e1 e2 : event) (tr : list event) : Prop :=
  ∃ i j : nat, tr !! i = Some e1 ∧ tr !! j = Some e2 ∧ (i < j)%nat.

(** ** A daemon at work, for the examples *)

Definition cfg0 : config :=
  {| sock_file := "/home/u/.clipster/clipster_sock";
     hist_file := "/home/u/.clipster/history";
     pid_file := "/home/u/.clipster/clipster.pid";
     clipster_dir := "/home/u/.clipster";
     max_input := 50000 |}.

(** A daemon with process id 4711 has prepared its files. *)
Definition world0 : world :=
  {| files := <["/home/u/.clipster/clipster.pid" := FText "4711"]>
                (<["/home/u/.clipster/clipster_sock" := FSocket]>
                   (<["/home/u/.clipster" := FDir]> ∅));
     denied := ∅;
     procs := <[1 := Foreign]> (<[4711 := Own]> ∅);
     getpid := 4711;
     trace := [] |}.

(** The same files after that daemon has died without cleaning up, seen by
    a new process. *)
Definition world_after_crash : world :=
  {| files := files world0;
     denied := ∅;
     procs := <[1 := Foreign]> (<[5000 := Own]> ∅);
     getpid := 5000;
     trace := [] |}.

(** The same directory with a PID file that names process 1, which is there
    and belongs to root, seen by the process 5000 of an ordinary user. *)
Definition world_pid_of_init : world :=
  {| files := <["/home/u/.clipster/clipster.pid" := FText "1"]> (files world0);
     denied := ∅;
     procs := <[1 := Foreign]> (<[5000 := Own]> ∅);
     getpid := 5000;
     trace := [] |}.

Definition running (b : gmap string (list string)) : state :=
  {| self := set_boards b init_daemon; os := world0 |}.

Definition abc_boards : gmap string (list string) :=
  <["PRIMARY" := ["a"; "b"; "c"]]> init_boards.

(** A daemon that has just been made, on a machine whose history file
    holds an entry twice (a file written by hand, or by another tool). *)
Definition twice_boards : gmap string (list string) :=
  <["PRIMARY" := ["a"; "a"]]> init_boards.

Definition fresh_on_twice : state :=
  {| self := init_daemon;
     os := set_files (<["/home/u/.clipster/history" := FJson twice_boards]>
                        (files world0)) world0 |}.

(** ** Tactics that run the methods in a proof *)

Ltac unfold_M :=
  unfold mbind, mret, M_bind, M_ret, bind, ret, raise, lift, try_except,
    sys_exit, print, emit, put_file, get_self, get_os, modify_self, modify_os
    in *.

Ltac unfold_setters :=
  unfold set_trace, set_files, set_boards, set_window, set_primary,
    set_clipboard, set_sock_s in *.

Ltac run_M := unfold_M; unfold_setters; cbn.

(** * Properties *)

(** ** The model at work *)

Example split_at_most_twice :
  split ":" 2 "BOARD:PRIMARY:hello:world" = ["BOARD"; "PRIMARY"; "hello:world"]
  ∧ split ":" 2 "SELECT:PRIMARY:" = ["SELECT"; "PRIMARY"; ""]
  ∧ split ":" 2 "BOARD:PRIMARY" = ["BOARD"; "PRIMARY"]
  ∧ split ":" 2 "" = [""].
Proof. repeat split. Qed.

Example int_of_pid_file :
  py_int "4711" = Ok 4711
  ∧ py_int (" 12" +:+ String (ascii_of_nat 10) "") = Ok 12
  ∧ py_int "-3" = Ok (-3)
  ∧ py_int "12a" = Raise ValueError
  ∧ py_int "" = Raise ValueError.
Proof. repeat split. Qed.

Example update_history_moves :
  boards (self (snd (update_history "PRIMARY" "a" (running abc_boards))))
    !! "PRIMARY" = Some ["b"; "c"; "a"]
  ∧ fst (update_history "SECONDARY" "a" (running abc_boards))
    = Raise (KeyError "SECONDARY").
Proof. repeat split. Qed.

Example receive_stops_past_max_input :
  recv_loop 4 [Data "BOARD"; Data ":PRIMARY:x"] [] 0 = Ok ["BOARD"]
  ∧ recv_loop 5 [Data "BOARD"; Data ":PRIMARY:x"] [] 0
    = Ok ["BOARD"; ":PRIMARY:x"]
  ∧ recv_loop 50000 [Data "BOARD:"; Fail; Data "x"] [] 0 = Ok ["BOARD:"]
  ∧ recv_loop 50000 [Data (String (ascii_of_nat 195) "")] [] 0
    = Raise UnicodeDecodeError.
Proof. repeat split. Qed.

(** ** The history *)

Section History.

Implicit Types (l : list string) (x text board : string) (st : state).

Lemma remove_drop_first x l : x ∈ l → remove x l = Some (drop_first x l).
Proof.
  induction l as [|y l IH]; intros Hin; [by apply elem_of_nil in Hin|].
  cbn. destruct (decide (y = x)) as [->|Hne]; [done|].
  apply elem_of_cons in Hin as [->|Hin]; [done|]. by rewrite IH.
Qed.

Lemma drop_first_notin x l : x ∉ l → drop_first x l = l.
Proof.
  induction l as [|y l IH]; intros Hnin; [done|].
  apply not_elem_of_cons in Hnin as [Hne Hnin]. cbn.
  destruct (decide (y = x)); [congruence|]. by rewrite IH.
Qed.

Lemma drop_first_app_tail x l : x ∉ l → drop_first x (l ++ [x]) = l.
Proof.
  induction l as [|y l IH]; intros Hnin; cbn.
  - by rewrite decide_True.
  - apply not_elem_of_cons in Hnin as [Hne Hnin].
    destruct (decide (y = x)); [congruence|]. by rewrite IH.
Qed.

Lemma drop_first_split x l1 l2 :
  x ∉ l1 → drop_first x (l1 ++ x :: l2) = l1 ++ l2.
Proof.
  induction l1 as [|y l1 IH]; intros Hnin; cbn.
  - by rewrite decide_True.
  - apply not_elem_of_cons in Hnin as [Hne Hnin].
    destruct (decide (y = x)); [congruence|]. by rewrite IH.
Qed.

Lemma drop_first_subseteq x l z : z ∈ drop_first x l → z ∈ l.
Proof.
  induction l as [|y l IH]; cbn; [done|].
  destruct (decide (y = x)); rewrite !elem_of_cons; intuition.
Qed.

Lemma drop_first_NoDup x l : NoDup l → NoDup (drop_first x l) ∧ x ∉ drop_first x l.
Proof.
  induction 1 as [|y l Hy Hl IH]; cbn.
  - split; [constructor | apply not_elem_of_nil].
  - destruct (decide (y = x)) as [->|Hne]; [done|].
    destruct IH as [IH1 IH2]. split.
    + constructor; [|done]. intros Hin. by apply Hy, (drop_first_subseteq x).
    + apply not_elem_of_cons. split; [congruence | done].
Qed.

Lemma drop_first_count x l :
  (count_occ String.string_dec l x ≤ 1)%nat → x ∉ drop_first x l.
Proof.
  induction l as [|y l IH]; cbn; intros Hc; [apply not_elem_of_nil|].
  destruct (String.string_dec y x) as [->|Hne].
  - rewrite decide_True by done. intros Hin.
    apply list_elem_of_In, (count_occ_In String.string_dec) in Hin. lia.
  - rewrite decide_False by done. apply not_elem_of_cons. split; [congruence|auto].
Qed.

(** What a call of [update_history] does, for a selection that has a
    history: the first occurrence of [text] goes, [text] is appended, and the
    new list is printed. *)
Lemma update_history_run board text st l :
  boards (self st) !! board = Some l →
  update_history board text st =
    (Ok tt,
     {| self := set_boards (<[board := drop_first text l ++ [text]]>
                              (boards (self st))) (self st);
        os := set_trace (trace (os st)
                         ++ [Print (PList (drop_first text l ++ [text]))])
                (os st) |}).
Proof.
  intros Hl. unfold update_history, getitem_boards. unfold_M. cbn.
  rewrite Hl. unfold contains. case_bool_decide as Hin.
  - by rewrite (remove_drop_first _ _ Hin).
  - by rewrite (drop_first_notin _ _ Hin).
Qed.

Lemma record_run s text st l :
  text ≠ EmptyString →
  boards (self st) !! selection_name s = Some l →
  record s text st =
    (Ok tt,
     {| self := set_boards (<[selection_name s := drop_first text l ++ [text]]>
                              (boards (self st))) (self st);
        os := set_trace (trace (os st)
                         ++ [Print (PList (drop_first text l ++ [text]))])
                (os st) |}).
Proof.
  intros Hne Hl. unfold record, owner_change.
  destruct text as [|c t]; [done|]. cbn [truthy].
  unfold mbind, M_bind, bind. by rewrite (update_history_run _ _ _ _ Hl).
Qed.

Lemma count_occ_tail x l :
  x ∉ l → count_occ String.string_dec (l ++ [x]) x = 1%nat.
Proof.
  intros Hnin. rewrite count_occ_app.
  rewrite (proj1 (count_occ_not_In String.string_dec l x)).
  - cbn. by destruct (String.string_dec x x).
  - by rewrite <- list_elem_of_In.
Qed.

End History.

(** C7.  Recording the empty text changes nothing: [owner_change] calls
    [update_history] only for a text that is neither [None] nor empty, so
    the state after is the state before, for both selections. *)
Theorem record_empty_is_noop (s : Selection) (st : state) :
  record s "" st = (Ok tt, st)
  ∧ owner_change (selection_name s) (Some "") st = (Ok (Some ""), st)
  ∧ owner_change (selection_name s) None st = (Ok None, st).
Proof. repeat split. Qed.

(** C1 (as the code has it).  For a selection [s] whose history holds the
    non-empty text [x] at most once, two calls of [record s x] in a row leave
    a history in which [x] occurs exactly once and is the last element.  And
    whatever the history, recording a text it holds removes the first
    occurrence and appends the text: the entries before and after that
    occurrence keep their order, the length stays, the other selection is
    untouched. *)
Theorem record_again_moves_to_tail (s : Selection) (x : string) (st : state)
    (l : list string) :
  x ≠ "" →
  boards (self st) !! selection_name s = Some l →
  ((count_occ String.string_dec l x ≤ 1)%nat →
   ∃ st' l',
     (record s x;; record s x) st = (Ok tt, st')
     ∧ boards (self st') !! selection_name s = Some l'
     ∧ count_occ String.string_dec l' x = 1%nat
     ∧ last l' = Some x)
  ∧ (∀ l1 l2, l = l1 ++ x :: l2 → x ∉ l1 →
     ∃ st',
       record s x st = (Ok tt, st')
       ∧ boards (self st') !! selection_name s = Some (l1 ++ l2 ++ [x])
       ∧ ∀ k, k ≠ selection_name s →
              boards (self st') !! k = boards (self st) !! k).
Proof.
  intros Hx Hl. split.
  - intros Hc. pose proof (drop_first_count _ _ Hc) as Hnin.
    eexists _, (drop_first x l ++ [x]).
    unfold mbind, M_bind, bind. rewrite (record_run _ _ _ _ Hx Hl).
    erewrite record_run; [|done|cbn; apply lookup_insert_eq].
    rewrite drop_first_app_tail by done. cbn.
    split; [reflexivity|]. split; [apply lookup_insert_eq|].
    split; [by apply count_occ_tail | apply last_snoc].
  - intros l1 l2 -> Hnin. eexists. rewrite (record_run _ _ _ _ Hx Hl).
    split; [reflexivity|]. cbn. rewrite drop_first_split by done.
    split; [by rewrite lookup_insert_eq, <- app_assoc|].
    intros k Hk. by rewrite lookup_insert_ne.
Qed.

Lemma record_again_moves_to_tail_witness :
  ∃ st' l',
    (record PRIMARY "b";; record PRIMARY "b") (running abc_boards) = (Ok tt, st')
    ∧ boards (self st') !! selection_name PRIMARY = Some l'
    ∧ count_occ String.string_dec l' "b" = 1%nat
    ∧ last l' = Some "b".
Proof.
  apply (proj1 (record_again_moves_to_tail PRIMARY "b" (running abc_boards)
                  ["a"; "b"; "c"] ltac:(discriminate) ltac:(reflexivity))).
  vm_compute. lia.
Defined.

(** C1, as stated, fails on a history that holds the text twice, as the
    daemon has it after loading a history file that does: [list.remove]
    drops the first occurrence only, so after the two calls the history
    holds ["a"] twice again. *)
Lemma record_again_keeps_duplicate :
  ∃ st,
    read_history_file cfg0 fresh_on_twice = (Ok tt, st)
    ∧ boards (self st) !! selection_name PRIMARY = Some ["a"; "a"]
    ∧ (∃ st', (record PRIMARY "a";; record PRIMARY "a") st = (Ok tt, st')
              ∧ boards (self st') !! selection_name PRIMARY
                = Some ["a"; "a"])
    ∧ ¬ ∃ st' l',
        (record PRIMARY "a";; record PRIMARY "a") st = (Ok tt, st')
        ∧ boards (self st') !! selection_name PRIMARY = Some l'
        ∧ count_occ String.string_dec l' "a" = 1%nat
        ∧ last l' = Some "a".
Proof.
  eexists. split; [reflexivity|]. split; [reflexivity|].
  split; [eexists; split; reflexivity|].
  intros (st' & l' & Hrun & Hl & Hc & _).
  vm_compute in Hrun. injection Hrun as <-.
  vm_compute in Hl. injection Hl as <-.
  vm_compute in Hc. discriminate.
Qed.

Section Invariant.

Implicit Types (b : gmap string (list string)) (st : state).

Lemma duplicate_free_insert b k l :
  duplicate_free b → NoDup l → duplicate_free (<[k := l]> b).
Proof. intros Hb Hl. by apply map_Forall_insert_2. Qed.

Lemma has_selections_insert b k l :
  has_selections b → has_selections (<[k := l]> b).
Proof.
  intros Hb s. destruct (decide (k = selection_name s)) as [->|Hne].
  - rewrite lookup_insert_eq. eauto.
  - rewrite lookup_insert_ne by done. apply Hb.
Qed.

(** One call keeps both the invariant and the two histories in place. *)
Lemma record_keeps_duplicate_free s text st :
  has_selections (boards (self st)) →
  duplicate_free (boards (self st)) →
  ∃ st', record s text st = (Ok tt, st')
         ∧ has_selections (boards (self st'))
         ∧ duplicate_free (boards (self st')).
Proof.
  intros Hsel Hnd. destruct (decide (text = "")) as [->|Hne].
  - exists st. by destruct s.
  - destruct (Hsel s) as [l Hl]. eexists.
    split; [by apply record_run|]. cbn.
    split; [by apply has_selections_insert|].
    apply duplicate_free_insert; [done|].
    destruct (drop_first_NoDup text l (Hnd _ _ Hl)) as [Hd Hnin].
    apply NoDup_app. split; [done|]. split; [|apply NoDup_singleton].
    intros y Hy ->%list_elem_of_singleton. done.
Qed.

End Invariant.

(** C6.  From a state in which every history is duplicate-free, any finite
    sequence of [record] calls, on either selection and with any texts (the
    empty one included), runs to its end and leaves every history
    duplicate-free. *)
Theorem records_keep_duplicate_free (calls : list (Selection * string))
    (st : state) :
  has_selections (boards (self st)) →
  duplicate_free (boards (self st)) →
  ∃ st', records calls st = (Ok tt, st')
         ∧ has_selections (boards (self st'))
         ∧ duplicate_free (boards (self st')).
Proof.
  revert st. induction calls as [|[s text] calls IH]; intros st Hsel Hnd.
  - by exists st.
  - destruct (record_keeps_duplicate_free s text st Hsel Hnd)
      as (st1 & Hrun & Hsel1 & Hnd1).
    destruct (IH st1 Hsel1 Hnd1) as (st2 & Hrun2 & Hsel2 & Hnd2).
    exists st2. cbn [records]. unfold mbind, M_bind, bind. by rewrite Hrun.
Qed.

Lemma records_keep_duplicate_free_witness :
  ∃ st',
    records [(PRIMARY, "b"); (CLIPBOARD, "x"); (PRIMARY, ""); (PRIMARY, "b")]
      (running abc_boards) = (Ok tt, st')
    ∧ has_selections (boards (self st'))
    ∧ duplicate_free (boards (self st')).
Proof.
  apply (records_keep_duplicate_free _ (running abc_boards)).
  - intros []; vm_compute; eauto.
  - apply (bool_decide_unpack _). vm_compute. exact I.
Defined.

Section Persistence.

Variable cfg : config.
Implicit Types (st : state) (snap : gmap string (list string)).

Lemma write_history_file_run st :
  regular (os st) (hist_file cfg) →
  write_history_file cfg st =
    (Ok tt,
     {| self := self st;
        os := set_files (<[hist_file cfg := FJson (boards (self st))]>
                           (files (os st)))
                (set_trace (trace (os st) ++ [SysOpenW (hist_file cfg)])
                   (os st)) |}).
Proof.
  intros (Hden & Hdir & Hsock).
  unfold write_history_file, open_w, guard_denied. run_M.
  rewrite decide_False by done. cbn.
  destruct (files (os st) !! hist_file cfg) as [[]|]; done.
Qed.

Lemma read_history_file_run st snap :
  hist_file cfg ∉ denied (os st) →
  files (os st) !! hist_file cfg = Some (FJson snap) →
  read_history_file cfg st =
    (Ok tt,
     {| self := set_boards (dict_update snap (boards (self st))) (self st);
        os := set_trace (trace (os st) ++ [SysOpenR (hist_file cfg)])
                (os st) |}).
Proof.
  intros Hden Hf.
  unfold read_history_file, open_r, guard_denied, json_load. run_M.
  rewrite decide_False by done. cbn. by rewrite Hf.
Qed.

Lemma dict_update_lookup snap b k :
  dict_update snap b !! k =
    match snap !! k with Some l => Some l | None => b !! k end.
Proof.
  unfold dict_update. destruct (snap !! k) as [l|] eqn:Hk.
  - by apply lookup_union_Some_l.
  - by rewrite lookup_union_r.
Qed.

Lemma dict_update_covered snap b : dom b ⊆ dom snap → dict_update snap b = snap.
Proof.
  intros Hdom. apply map_eq. intros k. rewrite dict_update_lookup.
  destruct (snap !! k) as [l|] eqn:Hk; [done|].
  apply not_elem_of_dom. apply not_elem_of_dom in Hk. set_solver.
Qed.

End Persistence.

(** C10.  Loading merges.  When the history file holds the snapshot [snap],
    [read_history_file] succeeds, and afterwards every key of [snap] has the
    sequence [snap] gives it, while every key [snap] does not have keeps the
    sequence it had in memory. *)
Theorem read_history_file_merges (cfg : config) (st : state)
    (snap : gmap string (list string)) :
  hist_file cfg ∉ denied (os st) →
  files (os st) !! hist_file cfg = Some (FJson snap) →
  ∃ st',
    read_history_file cfg st = (Ok tt, st')
    ∧ (∀ k l, snap !! k = Some l → boards (self st') !! k = Some l)
    ∧ (∀ k, snap !! k = None → boards (self st') !! k = boards (self st) !! k).
Proof.
  intros Hden Hf. eexists. split; [by apply read_history_file_run|].
  cbn. split.
  - intros k l Hk. by rewrite dict_update_lookup, Hk.
  - intros k Hk. by rewrite dict_update_lookup, Hk.
Qed.

Lemma read_history_file_merges_witness :
  ∃ st',
    read_history_file cfg0
      {| self := set_boards abc_boards init_daemon;
         os := set_files (<[hist_file cfg0 := FJson {[ "CLIPBOARD" := ["x"] ]}]>
                            (files world0)) world0 |}
      = (Ok tt, st')
    ∧ (∀ k l, ({[ "CLIPBOARD" := ["x"] ]} : gmap string (list string)) !! k
              = Some l → boards (self st') !! k = Some l)
    ∧ (∀ k, ({[ "CLIPBOARD" := ["x"] ]} : gmap string (list string)) !! k
            = None → boards (self st') !! k = abc_boards !! k).
Proof.
  apply (read_history_file_merges cfg0
           {| self := set_boards abc_boards init_daemon;
              os := set_files (<[hist_file cfg0 := FJson {[ "CLIPBOARD" := ["x"] ]}]>
                                 (files world0)) world0 |}).
  - vm_compute. set_solver.
  - reflexivity.
Defined.

(** C5.  What [write_history_file] dumps, [read_history_file] loads back
    unchanged: in the daemon that wrote it the histories stay what they are,
    and in a daemon started afresh on the files left behind they become those
    of the daemon that wrote them, provided that one had a history for both
    selections. *)
Theorem load_dump_identity (cfg : config) (st : state) :
  regular (os st) (hist_file cfg) →
  ∃ st1,
    write_history_file cfg st = (Ok tt, st1)
    ∧ files (os st1) !! hist_file cfg = Some (FJson (boards (self st)))
    ∧ (∃ st2, read_history_file cfg st1 = (Ok tt, st2)
              ∧ boards (self st2) = boards (self st))
    ∧ (has_selections (boards (self st)) →
       ∃ st2, read_history_file cfg {| self := init_daemon; os := os st1 |}
                = (Ok tt, st2)
              ∧ boards (self st2) = boards (self st)).
Proof.
  intros Hreg. eexists. split; [by apply write_history_file_run|].
  destruct Hreg as (Hden & _). cbn.
  split; [apply lookup_insert_eq|]. split.
  - eexists. split.
    + apply read_history_file_run; cbn; [done | apply lookup_insert_eq].
    + cbn. by apply dict_update_covered.
  - intros Hsel. eexists. split.
    + apply read_history_file_run; cbn; [done | apply lookup_insert_eq].
    + cbn. apply dict_update_covered. unfold init_boards.
      rewrite !dom_insert_L, dom_empty_L.
      pose proof (Hsel PRIMARY) as HP%elem_of_dom.
      pose proof (Hsel CLIPBOARD) as HC%elem_of_dom.
      cbn in HP, HC. apply union_subseteq. split; [set_solver|].
      apply union_subseteq. split; set_solver.
Qed.

Lemma load_dump_identity_witness :
  ∃ st1,
    write_history_file cfg0 (running abc_boards) = (Ok tt, st1)
    ∧ files (os st1) !! hist_file cfg0 = Some (FJson abc_boards)
    ∧ (∃ st2, read_history_file cfg0 st1 = (Ok tt, st2)
              ∧ boards (self st2) = abc_boards)
    ∧ (∃ st2, read_history_file cfg0 {| self := init_daemon; os := os st1 |}
                = (Ok tt, st2)
              ∧ boards (self st2) = abc_boards).
Proof.
  destruct (load_dump_identity cfg0 (running abc_boards))
    as (st1 & Hdump & Hfile & Hsame & Hfresh).
  { split; [vm_compute; set_solver|]. split; by vm_compute. }
  exists st1. split; [exact Hdump|]. split; [exact Hfile|].
  split; [exact Hsame|]. apply Hfresh. intros []; vm_compute; eauto.
Defined.

Section Protocol.

Implicit Types (s a b c sent : string) (sep : ascii).

Lemma partition_app sep a b :
  count sep a = 0%nat → partition sep (a +:+ String sep b) = Some (a, b).
Proof.
  induction a as [|d a IH]; simpl; intros Hc.
  - by destruct (decide (sep = sep)).
  - destruct (decide (d = sep)); [done|]. by rewrite IH.
Qed.

Lemma partition_None sep s : count sep s = 0%nat → partition sep s = None.
Proof.
  induction s as [|d s IH]; cbn; intros Hc; [done|].
  destruct (decide (d = sep)); [done|]. by rewrite IH.
Qed.

Lemma partition_Some sep s a b :
  partition sep s = Some (a, b) → count sep s = S (count sep b).
Proof.
  revert a. induction s as [|d s IH]; cbn; intros a Hp; [done|].
  destruct (decide (d = sep)).
  - by injection Hp as _ ->.
  - destruct (partition sep s) as [[a' b']|]; [|done].
    injection Hp as _ <-. by apply (IH a').
Qed.

(** Messages of the client's form decode to their three parts, whatever the
    third holds. *)
Lemma decode_client_message a b c :
  count ":" a = 0%nat → count ":" b = 0%nat →
  decode (client_message a b c) = Ok (a, b, c).
Proof.
  intros Ha Hb. unfold decode, client_message. cbn [split].
  change (":" +:+ ?x) with (String ":" x).
  rewrite (partition_app _ _ _ Ha).
  change (":" +:+ ?x) with (String ":" x).
  by rewrite (partition_app _ _ _ Hb).
Qed.

Lemma decode_too_few_colons sent :
  (count ":" sent < 2)%nat → decode sent = Raise ValueError.
Proof.
  intros Hc. unfold decode. cbn [split].
  destruct (partition ":" sent) as [[a b]|] eqn:Hp; [|done].
  apply partition_Some in Hp.
  rewrite partition_None; [done | lia].
Qed.

End Protocol.

(** C4.  Decoding cuts at the first two colons only.  A message
    [ACTION:SELECTION:CONTENT] whose first two parts hold no colon, the names
    of the actions and selections among them, decodes to exactly these three
    parts, the content whole even with colons or newlines in it; and a string
    with fewer than two colons does not decode: the unpacking raises
    [ValueError]. *)
Theorem decode_first_two_colons :
  (∀ action selection content,
     count ":" action = 0%nat → count ":" selection = 0%nat →
     decode (client_message action selection content)
       = Ok (action, selection, content))
  ∧ (∀ (a : Action) (s : Selection) content,
       decode (client_message (action_name a) (selection_name s) content)
         = Ok (action_name a, selection_name s, content))
  ∧ decode "BOARD:PRIMARY:hello:world" = Ok ("BOARD", "PRIMARY", "hello:world")
  ∧ (∀ sent, (count ":" sent < 2)%nat → decode sent = Raise ValueError).
Proof.
  split; [exact decode_client_message|].
  split; [intros [] [] content; by apply decode_client_message|].
  split; [reflexivity | exact decode_too_few_colons].
Qed.

Lemma decode_first_two_colons_witness :
  decode (client_message "BOARD" "CLIPBOARD" "a:b
c::") = Ok ("BOARD", "CLIPBOARD", "a:b
c::")
  ∧ decode "BOARD:PRIMARY" = Raise ValueError.
Proof.
  split.
  - apply (proj1 decode_first_two_colons); reflexivity.
  - apply (proj2 (proj2 (proj2 decode_first_two_colons))). vm_compute. lia.
Defined.

Section Socket.

Variable cfg : config.
Implicit Types (st : state) (incoming : list recv) (data l : list string).

Lemma foldl_snoc (acc l : list string) :
  foldl (λ model item, model ++ [item]) acc l = acc ++ l.
Proof.
  revert acc. induction l as [|x l IH]; intros acc; cbn.
  - by rewrite app_nil_r.
  - by rewrite IH, <- app_assoc.
Qed.

Lemma fill_model_reverse l : fill_model l = reverse l.
Proof. unfold fill_model. by rewrite foldl_snoc. Qed.

(** A non-empty payload that does not decode: the unpacking raises, and
    [socket_listen] is left at that point, with nothing of the daemon or its
    world changed and the connection not closed. *)
Lemma socket_listen_malformed st incoming data :
  recv_loop (max_input cfg) incoming [] 0 = Ok data →
  data ≠ [] →
  (count ":" (join data) < 2)%nat →
  socket_listen cfg incoming st = (Raise ValueError, st).
Proof.
  intros Hrecv Hdata Hc. unfold socket_listen. unfold_M.
  rewrite Hrecv. destruct data as [|t data]; [done|].
  by rewrite (decode_too_few_colons _ Hc).
Qed.

(** A [SELECT] message for a board that has a history. *)
Lemma socket_listen_select st incoming data board content l :
  recv_loop (max_input cfg) incoming [] 0 = Ok data →
  join data = client_message "SELECT" board content →
  count ":" board = 0%nat →
  boards (self st) !! board = Some l →
  socket_listen cfg incoming st =
    (Ok true,
     {| self := set_window (Some {| title := "Clipster";
                                    column := board +:+ " clipboard:";
                                    rows := reverse l;
                                    board_of := Some board;
                                    shown := true |}) (self st);
        os := set_trace (trace (os st) ++ [ConnClose]) (os st) |}).
Proof.
  intros Hrecv Hjoin Hboard Hl. unfold socket_listen. unfold_M.
  rewrite Hrecv. destruct data as [|t data]; [done|].
  rewrite Hjoin, decode_client_message by done.
  rewrite decide_True by done.
  unfold selection_widget, getitem_boards. run_M.
  by rewrite Hl, fill_model_reverse.
Qed.

End Socket.

(** C9.  A [SELECT] message for a selection hands the picker that
    selection's history reversed: the dialog that is shown has, from top to
    bottom, the entries from the most recent to the oldest.  The content of
    the message plays no part, the history is not changed, and the
    connection is closed. *)
Theorem select_shows_history_reversed (cfg : config) (st : state)
    (s : Selection) (l : list string) (incoming : list recv)
    (data : list string) (content : string) :
  recv_loop (max_input cfg) incoming [] 0 = Ok data →
  join data = client_message "SELECT" (selection_name s) content →
  boards (self st) !! selection_name s = Some l →
  ∃ st' w,
    socket_listen cfg incoming st = (Ok true, st')
    ∧ window (self st') = Some w
    ∧ rows w = reverse l
    ∧ shown w = true
    ∧ boards (self st') = boards (self st).
Proof.
  intros Hrecv Hjoin Hl. eexists _, _.
  split; [eapply socket_listen_select; eauto; by destruct s|].
  by cbn.
Qed.

Lemma select_shows_history_reversed_witness :
  ∃ st' w,
    socket_listen cfg0 [Data "SELECT:PRIMARY:"] (running abc_boards)
      = (Ok true, st')
    ∧ window (self st') = Some w
    ∧ rows w = ["c"; "b"; "a"]
    ∧ shown w = true
    ∧ boards (self st') = abc_boards.
Proof.
  exact (select_shows_history_reversed cfg0 (running abc_boards) PRIMARY
           ["a"; "b"; "c"] [Data "SELECT:PRIMARY:"] ["SELECT:PRIMARY:"] ""
           eq_refl eq_refl eq_refl).
Defined.

(** C3 on the code.  A payload without a colon is not dropped quietly:
    [socket_listen] raises [ValueError] out of the unpacking, before
    [conn.close()] and [return True], so no call to close the connection is
    made; the history is as it was.  The same handler on a connection that
    sent nothing closes it and returns [True]. *)
Theorem socket_listen_malformed_raises :
  socket_listen cfg0 [Data "hello"] (running abc_boards)
    = (Raise ValueError, running abc_boards)
  ∧ (ConnClose ∉ trace (os (running abc_boards)))
  ∧ ∃ st', socket_listen cfg0 [] (running abc_boards) = (Ok true, st')
           ∧ trace (os st') = [ConnClose].
Proof.
  split; [|split].
  - by apply (socket_listen_malformed cfg0 _ _ ["hello"]); [| |vm_compute; lia].
  - cbn. apply not_elem_of_nil.
  - eexists. split; reflexivity.
Qed.

Section Lifecycle.

Variable cfg : config.
Implicit Types (st : state) (path msg : string).

Lemma syscalls_app tr1 tr2 : syscalls (tr1 ++ tr2) = syscalls tr1 ++ syscalls tr2.
Proof. apply filter_app. Qed.

(** [try: os.unlink(path)  except OSError: print(msg)] always goes on: the
    daemon is untouched, one [unlink] is made, the file is gone unless the
    system refused, and no other file changes. *)
Lemma unlink_best_effort path msg st :
  ∃ st',
    try_except (unlink path) (on_OSError (λ _, print (PStr msg))) st
      = (Ok tt, st')
    ∧ self st' = self st
    ∧ denied (os st') = denied (os st)
    ∧ syscalls (trace (os st')) = syscalls (trace (os st)) ++ [SysUnlink path]
    ∧ (∀ p, p ≠ path → files (os st') !! p = files (os st) !! p)
    ∧ (files (os st') !! path = files (os st) !! path
       ∨ files (os st') !! path = None)
    ∧ (path ∉ denied (os st) → files (os st) !! path ≠ Some FDir →
       files (os st') !! path = None).
Proof.
  unfold unlink, guard_denied, on_OSError. run_M.
  destruct (decide (path ∈ denied (os st))) as [Hden|Hden]; cbn.
  { eexists. split; [reflexivity|]. cbn.
    rewrite !syscalls_app, app_nil_r. repeat split; auto. done. }
  destruct (files (os st) !! path) as [f|] eqn:Hf; cbn.
  - destruct f; cbn; eexists; (split; [reflexivity|]); cbn;
      rewrite ?syscalls_app, ?app_nil_r; repeat split; auto;
      try (intros p Hp; by rewrite lookup_delete_ne);
      try (right; apply lookup_delete_eq);
      try (intros; apply lookup_delete_eq); try done.
  - eexists. split; [reflexivity|]. cbn.
    rewrite !syscalls_app, app_nil_r. repeat split; auto.
Qed.

(** With a PID file that names a process the daemon may signal,
    [prepare_files] stops at [sys.exit(1)] in its first block. *)
Lemma check_pid_file_running st s pid :
  pid_file cfg ∉ denied (os st) →
  files (os st) !! pid_file cfg = Some (FText s) →
  py_int s = Ok pid →
  c_int pid = true →
  procs (os st) !! pid = Some Own →
  check_pid_file cfg st =
    (Raise (SystemExit 1),
     {| self := self st;
        os := set_trace
                (trace (os st)
                 ++ [SysOpenR (pid_file cfg); SysKill pid;
                     Print (PStr ("Daemon already running: pid "
                                  +:+ pretty pid))])
                (os st) |}).
Proof.
  intros Hden Hf Hint Hfit Hlive.
  unfold check_pid_file, open_r, guard_denied, kill0, on_OSError. run_M.
  rewrite decide_False by done. cbn. rewrite Hf, Hint. cbn.
  rewrite Hfit. cbn. rewrite Hlive. cbn.
  by rewrite <- !app_assoc.
Qed.

End Lifecycle.

(** When the PID file holds, in plain decimal digits, the id of a process
    that the daemon may signal, [prepare_files] exits with code 1 after
    having opened the PID file for reading, probed the process and printed
    its message, and nothing else: no file is created, changed or removed
    (the socket file, the history file and the PID file are as they were),
    and the daemon object is untouched. *)
Theorem prepare_files_refuses_second_daemon (cfg : config) (st : state)
    (s : string) (pid : Z) :
  pid_file cfg ∉ denied (os st) →
  files (os st) !! pid_file cfg = Some (FText s) →
  py_int s = Ok pid →
  c_int pid = true →
  procs (os st) !! pid = Some Own →
  ∃ st',
    prepare_files cfg st = (Raise (SystemExit 1), st')
    ∧ files (os st') = files (os st)
    ∧ self st' = self st
    ∧ trace (os st') =
        trace (os st)
        ++ [SysOpenR (pid_file cfg); SysKill pid;
            Print (PStr ("Daemon already running: pid " +:+ pretty pid))].
Proof.
  intros Hden Hf Hint Hfit Hlive. eexists. split.
  - unfold prepare_files, mbind, M_bind, bind.
    by rewrite (check_pid_file_running cfg st s pid).
  - by cbn.
Qed.

Lemma prepare_files_refuses_second_daemon_witness :
  ∃ st',
    prepare_files cfg0 (running abc_boards) = (Raise (SystemExit 1), st')
    ∧ files (os st') = files world0
    ∧ self st' = self (running abc_boards)
    ∧ trace (os st') =
        [SysOpenR "/home/u/.clipster/clipster.pid"; SysKill 4711;
         Print (PStr ("Daemon already running: pid " +:+ pretty 4711))].
Proof.
  apply (prepare_files_refuses_second_daemon cfg0 (running abc_boards)
           "4711" 4711).
  - vm_compute. set_solver.
  - reflexivity.
  - reflexivity.
  - reflexivity.
  - reflexivity.
Defined.

(** C8 on the code.  A PID file that names a live process does not always
    stop [prepare_files]: [os.kill(pid, 0)] raises [OSError] also for a
    process that is there but that the daemon may not signal, and the
    [except OSError] that was written for a process that is gone takes it
    the same way.  With process 1 in the PID file and an ordinary user's
    daemon, the PID file is removed and written anew with the daemon's own
    process id, the socket file is replaced and the daemon starts. *)
Theorem prepare_files_takes_live_process_for_gone :
  files world_pid_of_init !! pid_file cfg0 = Some (FText "1")
  ∧ procs world_pid_of_init !! 1 = Some Foreign
  ∧ ∃ st',
      prepare_files cfg0 {| self := init_daemon; os := world_pid_of_init |}
        = (Ok tt, st')
      ∧ files (os st') !! pid_file cfg0 = Some (FText "5000")
      ∧ syscalls (trace (os st')) =
          [SysOpenR (pid_file cfg0); SysKill 1; SysUnlink (pid_file cfg0);
           SysOpenW (pid_file cfg0); SysMakedirs (clipster_dir cfg0);
           SysOpenR (hist_file cfg0); SysUnlink (sock_file cfg0);
           SysBind (sock_file cfg0); SysListen 5].
Proof.
  split; [reflexivity|]. split; [reflexivity|].
  eexists. split; [vm_compute; reflexivity|]. split; reflexivity.
Qed.

(** C2 (as the code has it).  [exit] first tries to remove the socket file,
    then the PID file, going on when either fails, then writes the history
    file, and then leaves with exit code 0: when the history file can be
    written, these three calls are made in this order and no other, the
    file holds the histories of the daemon, and each of the other two files
    is gone unless the system refused to remove it. *)
Theorem exit_removes_then_persists (cfg : config) (st : state) :
  regular (os st) (hist_file cfg) →
  ∃ st',
    exit cfg st = (Raise (SystemExit 0), st')
    ∧ syscalls (trace (os st')) =
        syscalls (trace (os st))
        ++ [SysUnlink (sock_file cfg); SysUnlink (pid_file cfg);
            SysOpenW (hist_file cfg)]
    ∧ files (os st') !! hist_file cfg = Some (FJson (boards (self st)))
    ∧ self st' = self st
    ∧ (∀ path, path = sock_file cfg ∨ path = pid_file cfg →
         path ≠ hist_file cfg → path ∉ denied (os st) →
         files (os st) !! path ≠ Some FDir →
         files (os st') !! path = None).
Proof.
  intros (Hden & Hdir & Hsock).
  destruct (unlink_best_effort (sock_file cfg)
              ("Warning: Failed to remove socket file: " +:+ sock_file cfg) st)
    as (st1 & Hrun1 & Hself1 & Hden1 & Htr1 & Hne1 & Heq1 & Hgone1).
  destruct (unlink_best_effort (pid_file cfg)
              ("Warning: Failed to remove run file: " +:+ pid_file cfg) st1)
    as (st2 & Hrun2 & Hself2 & Hden2 & Htr2 & Hne2 & Heq2 & Hgone2).
  assert (Hkeep1 : ∀ p, files (os st1) !! p = files (os st) !! p
                        ∨ files (os st1) !! p = None).
  { intros p. destruct (decide (p = sock_file cfg)) as [->|Hp]; auto. }
  assert (Hkeep2 : ∀ p, files (os st2) !! p = files (os st1) !! p
                        ∨ files (os st2) !! p = None).
  { intros p. destruct (decide (p = pid_file cfg)) as [->|Hp]; auto. }
  assert (Hreg : regular (os st2) (hist_file cfg)).
  { split; [by rewrite Hden2, Hden1|].
    destruct (Hkeep2 (hist_file cfg)) as [E2|E2]; rewrite E2; [|done].
    destruct (Hkeep1 (hist_file cfg)) as [E1|E1]; by rewrite E1. }
  eexists. split.
  { unfold exit, mbind, M_bind, bind. rewrite Hrun1, Hrun2.
    by rewrite (write_history_file_run cfg st2 Hreg). }
  cbn. rewrite syscalls_app, Htr2, Htr1, <- !app_assoc. cbn.
  split; [done|]. split; [by rewrite lookup_insert_eq, Hself2, Hself1|].
  split; [by rewrite Hself2, Hself1|].
  intros path Hpath Hnh Hnd Hnotdir. rewrite lookup_insert_ne by done.
  assert (files (os st1) !! path = None → files (os st2) !! path = None)
    as Hstay.
  { intros E. destruct (Hkeep2 path) as [E2|E2]; by rewrite E2. }
  destruct Hpath as [->| ->].
  - by apply Hstay, Hgone1.
  - apply Hgone2; [by rewrite Hden1|].
    destruct (Hkeep1 (pid_file cfg)) as [E1|E1]; by rewrite E1.
Qed.

Lemma exit_removes_then_persists_witness :
  ∃ st',
    exit cfg0 (running abc_boards) = (Raise (SystemExit 0), st')
    ∧ syscalls (trace (os st')) =
        [SysUnlink "/home/u/.clipster/clipster_sock";
         SysUnlink "/home/u/.clipster/clipster.pid";
         SysOpenW "/home/u/.clipster/history"]
    ∧ files (os st') !! hist_file cfg0 = Some (FJson abc_boards)
    ∧ self st' = self (running abc_boards)
    ∧ files (os st') !! sock_file cfg0 = None
    ∧ files (os st') !! pid_file cfg0 = None.
Proof.
  destruct (exit_removes_then_persists cfg0 (running abc_boards))
    as (st' & Hrun & Hcalls & Hfile & Hself & Hgone).
  { split; [vm_compute; set_solver|]. split; by vm_compute. }
  exists st'. split; [exact Hrun|]. split; [exact Hcalls|].
  split; [exact Hfile|]. split; [exact Hself|].
  split; apply Hgone; auto; try discriminate; vm_compute; set_solver.
Defined.

(** C2, as stated, fails: the history is written after the two files are
    removed, not before. *)
Lemma exit_persists_last :
  (∃ st', exit cfg0 (running abc_boards) = (Raise (SystemExit 0), st')
          ∧ trace (os st') =
              [SysUnlink (sock_file cfg0); SysUnlink (pid_file cfg0);
               SysOpenW (hist_file cfg0)])
  ∧ ¬ ∃ st', exit cfg0 (running abc_boards) = (Raise (SystemExit 0), st')
             ∧ precedes (SysOpenW (hist_file cfg0))
                 (SysUnlink (sock_file cfg0)) (trace (os st'))
             ∧ precedes (SysOpenW (hist_file cfg0))
                 (SysUnlink (pid_file cfg0)) (trace (os st')).
Proof.
  split; [eexists; split; reflexivity|].
  intros (st' & Hrun & (i & j & Hi & Hj & Hlt) & _).
  vm_compute in Hrun. injection Hrun as <-. cbn in Hi, Hj.
  destruct i as [|[|[|i]]]; try discriminate.
  destruct j as [|[|[|j]]]; try discriminate; lia.
Qed.

(** * Further properties of the code *)

(** ** One call of [update_history], and many *)

Section HistorySteps.

Implicit Types (l : list string) (x y : string) (st : state).

Lemma drop_first_sublist x l : drop_first x l `sublist_of` l.
Proof.
  induction l as [|z l IH]; cbn; [done|].
  destruct (decide (z = x)); [by apply sublist_cons | by apply sublist_skip].
Qed.

Lemma drop_first_keeps_others x y l : y ≠ x → y ∈ l → y ∈ drop_first x l.
Proof.
  intros Hne. induction l as [|z l IH]; cbn; [done|].
  rewrite elem_of_cons. intros [->|Hin].
  - rewrite decide_False by done. apply list_elem_of_here.
  - destruct (decide (z = x)); [done|]. apply list_elem_of_further; auto.
Qed.

Lemma drop_first_length x l :
  x ∈ l → S (length (drop_first x l)) = length l.
Proof.
  induction l as [|z l IH]; cbn; [by intros ?%elem_of_nil|].
  rewrite elem_of_cons. destruct (decide (z = x)) as [->|Hne]; [done|].
  intros [->|Hin]; [done|]. cbn. by rewrite IH.
Qed.

End HistorySteps.

(** One call of [record] with a non-empty text, on any history of the
    selection (duplicates or not).  The new history is the old one with the
    text appended when the old one does not hold the text; otherwise it is
    the old one with the first occurrence of the text taken out, everything
    before and after that occurrence kept as it is and in its place, and the
    text appended.  So no other entry is lost, the order of the others
    stays, and the history grows by one entry exactly when the text is new.
    The other selection's history, the files and the rest of the daemon are
    not touched. *)
Theorem record_step (s : Selection) (x : string) (st : state)
    (l : list string) :
  x ≠ "" →
  boards (self st) !! selection_name s = Some l →
  ∃ st' l0,
    record s x st = (Ok tt, st')
    ∧ boards (self st') !! selection_name s = Some (l0 ++ [x])
    ∧ (((x ∉ l) ∧ l0 = l)
       ∨ (∃ l1 l2, l = l1 ++ x :: l2 ∧ (x ∉ l1) ∧ l0 = l1 ++ l2))
    ∧ l0 `sublist_of` l
    ∧ (∀ y, y ≠ x → y ∈ l → y ∈ l0)
    ∧ length (l0 ++ [x]) = (if decide (x ∈ l) then length l else S (length l))
    ∧ (∀ k, k ≠ selection_name s →
            boards (self st') !! k = boards (self st) !! k)
    ∧ files (os st') = files (os st)
    ∧ window (self st') = window (self st)
    ∧ primary (self st') = primary (self st)
    ∧ clipboard (self st') = clipboard (self st).
Proof.
  intros Hx Hl. eexists _, (drop_first x l).
  split; [by apply record_run|]. cbn.
  split; [apply lookup_insert_eq|].
  split.
  { destruct (decide (x ∈ l)) as [Hin|Hnin].
    - right. apply list_elem_of_split_l in Hin as (l1 & l2 & -> & Hnin).
      exists l1, l2. by rewrite drop_first_split.
    - left. by rewrite drop_first_notin. }
  split; [apply drop_first_sublist|].
  split; [intros y Hy; by apply drop_first_keeps_others|].
  split.
  - rewrite length_app. cbn. destruct (decide (x ∈ l)) as [Hin|Hnin].
    + rewrite <- (drop_first_length x l Hin). lia.
    + rewrite drop_first_notin by done. lia.
  - split; [|done]. intros k Hk. by rewrite lookup_insert_ne.
Qed.

Lemma record_step_witness :
  ∃ st' l0,
    record PRIMARY "b" (running abc_boards) = (Ok tt, st')
    ∧ boards (self st') !! selection_name PRIMARY = Some (l0 ++ ["b"])
    ∧ ((("b" ∉ ["a"; "b"; "c"]) ∧ l0 = ["a"; "b"; "c"])
       ∨ (∃ l1 l2, ["a"; "b"; "c"] = l1 ++ "b" :: l2 ∧ ("b" ∉ l1)
                   ∧ l0 = l1 ++ l2))
    ∧ l0 `sublist_of` ["a"; "b"; "c"]
    ∧ (∀ y, y ≠ "b" → y ∈ ["a"; "b"; "c"] → y ∈ l0)
    ∧ length (l0 ++ ["b"]) = 3%nat
    ∧ (∀ k, k ≠ selection_name PRIMARY →
            boards (self st') !! k = abc_boards !! k)
    ∧ files (os st') = files world0
    ∧ window (self st') = None
    ∧ primary (self st') = None
    ∧ clipboard (self st') = None.
Proof.
  exact (record_step PRIMARY "b" (running abc_boards) ["a"; "b"; "c"]
           ltac:(discriminate) eq_refl).
Defined.

Section NoEviction.

Implicit Types (l : list string) (x y : string) (st : state).

(** Membership in the histories only grows under a call of [record]. *)
Lemma record_members s x st :
  has_selections (boards (self st)) →
  ∃ st',
    record s x st = (Ok tt, st')
    ∧ has_selections (boards (self st'))
    ∧ (∀ s' y l, boards (self st) !! selection_name s' = Some l → y ∈ l →
         ∃ l', boards (self st') !! selection_name s' = Some l' ∧ y ∈ l')
    ∧ (x ≠ "" →
       ∃ l', boards (self st') !! selection_name s = Some l' ∧ x ∈ l').
Proof.
  intros Hsel. destruct (decide (x = "")) as [->|Hne].
  - exists st. split; [by destruct s|]. split; [done|]. split; [eauto|done].
  - destruct (Hsel s) as [l Hl]. eexists.
    split; [by apply record_run|]. cbn.
    split; [by apply has_selections_insert|]. split.
    + intros s' y l0 Hl0 Hy.
      destruct (decide (selection_name s' = selection_name s)) as [E|Hs].
      * rewrite E in *. rewrite lookup_insert_eq. eexists. split; [done|].
        assert (l0 = l) as -> by congruence.
        destruct (decide (y = x)) as [->|Hyx].
        -- apply elem_of_app. right. apply list_elem_of_here.
        -- apply elem_of_app. left. by apply drop_first_keeps_others.
      * rewrite lookup_insert_ne; [eauto|congruence].
    + intros _. rewrite lookup_insert_eq. eexists. split; [done|].
      apply elem_of_app. right. apply list_elem_of_here.
Qed.

End NoEviction.

(** Nothing is ever evicted.  After any finite sequence of [record] calls on
    a daemon that has both histories, every entry a history held at the start
    is still in it, and so is every non-empty text recorded on the way. *)
Theorem records_never_evict (calls : list (Selection * string)) (st : state) :
  has_selections (boards (self st)) →
  ∃ st',
    records calls st = (Ok tt, st')
    ∧ (∀ s y l, boards (self st) !! selection_name s = Some l → y ∈ l →
         ∃ l', boards (self st') !! selection_name s = Some l' ∧ y ∈ l')
    ∧ (∀ s x, (s, x) ∈ calls → x ≠ "" →
         ∃ l', boards (self st') !! selection_name s = Some l' ∧ x ∈ l').
Proof.
  revert st. induction calls as [|[s x] calls IH]; intros st Hsel.
  - exists st. split; [done|]. split; [eauto|].
    intros s x Hin. by apply elem_of_nil in Hin.
  - destruct (record_members s x st Hsel) as (st1 & Hrun & Hsel1 & Hold & Hnew).
    destruct (IH st1 Hsel1) as (st2 & Hrun2 & Hold2 & Hnew2).
    exists st2. split.
    { cbn [records]. unfold mbind, M_bind, bind. by rewrite Hrun. }
    split.
    + intros s' y l Hl Hy. destruct (Hold s' y l Hl Hy) as (l1 & Hl1 & Hy1).
      by apply (Hold2 s' y l1).
    + intros s' x' Hin Hx'. apply elem_of_cons in Hin as [[= -> ->]|Hin].
      * destruct (Hnew Hx') as (l1 & Hl1 & Hx1). by apply (Hold2 s x l1).
      * by apply Hnew2.
Qed.

Lemma records_never_evict_witness :
  ∃ st',
    records [(PRIMARY, "b"); (CLIPBOARD, "x"); (PRIMARY, "d")]
      (running abc_boards) = (Ok tt, st')
    ∧ (∀ s y l, abc_boards !! selection_name s = Some l → y ∈ l →
         ∃ l', boards (self st') !! selection_name s = Some l' ∧ y ∈ l')
    ∧ (∀ s x, (s, x) ∈ [(PRIMARY, "b"); (CLIPBOARD, "x"); (PRIMARY, "d")] →
         x ≠ "" →
         ∃ l', boards (self st') !! selection_name s = Some l' ∧ x ∈ l').
Proof.
  apply (records_never_evict _ (running abc_boards)).
  intros []; vm_compute; eauto.
Defined.

Section MostRecent.

Implicit Types (calls : list (Selection * string)) (st : state).

Lemma records_app calls1 calls2 st :
  records (calls1 ++ calls2) st = (records calls1;; records calls2) st.
Proof.
  revert st. induction calls1 as [|[s x] calls1 IH]; intros st; [done|].
  cbn [app records]. unfold mbind, M_bind, bind.
  destruct (record s x st) as [[[]|e] st1]; [|done]. apply IH.
Qed.

Lemma records_has_selections calls st :
  has_selections (boards (self st)) →
  ∃ st', records calls st = (Ok tt, st')
         ∧ has_selections (boards (self st')).
Proof.
  revert st. induction calls as [|[s x] calls IH]; intros st Hsel.
  - by exists st.
  - destruct (record_members s x st Hsel) as (st1 & Hrun & Hsel1 & _).
    destruct (IH st1 Hsel1) as (st2 & Hrun2 & Hsel2).
    exists st2. cbn [records]. unfold mbind, M_bind, bind. by rewrite Hrun.
Qed.

End MostRecent.

(** The most recent entry is the last one.  Whatever calls of [record] came
    before, after a call with a non-empty text the history of its selection
    ends with that text. *)
Theorem most_recent_is_last (calls : list (Selection * string))
    (s : Selection) (x : string) (st : state) :
  has_selections (boards (self st)) →
  x ≠ "" →
  ∃ st' l,
    records (calls ++ [(s, x)]) st = (Ok tt, st')
    ∧ boards (self st') !! selection_name s = Some l
    ∧ last l = Some x.
Proof.
  intros Hsel Hx.
  destruct (records_has_selections calls st Hsel) as (st1 & Hrun & Hsel1).
  destruct (Hsel1 s) as [l Hl].
  eexists _, _. rewrite records_app. unfold mbind, M_bind, bind.
  rewrite Hrun. cbn [records]. unfold mbind, M_bind, bind.
  rewrite (record_run s x st1 l Hx Hl).
  split; [reflexivity|]. cbn.
  split; [apply lookup_insert_eq | apply last_snoc].
Qed.

Lemma most_recent_is_last_witness :
  ∃ st' l,
    records ([(PRIMARY, "b"); (CLIPBOARD, "x")] ++ [(PRIMARY, "a")])
      (running abc_boards) = (Ok tt, st')
    ∧ boards (self st') !! selection_name PRIMARY = Some l
    ∧ last l = Some "a".
Proof.
  apply (most_recent_is_last _ PRIMARY "a" (running abc_boards)).
  - intros []; vm_compute; eauto.
  - discriminate.
Defined.

(** ** Decoding, the other way round *)

Section Decoding.

Implicit Types (s a b c sent : string) (sep : ascii).

Lemma partition_Some_inv sep s a b :
  partition sep s = Some (a, b) →
  s = a +:+ String sep b ∧ count sep a = 0%nat.
Proof.
  revert a. induction s as [|d s IH]; cbn; intros a Hp; [done|].
  destruct (decide (d = sep)) as [->|Hne].
  - by injection Hp as <- <-.
  - destruct (partition sep s) as [[a' b']|]; [|done].
    injection Hp as <- <-. destruct (IH a' eq_refl) as [-> Hc].
    split; [done|]. cbn. by rewrite decide_False.
Qed.

Lemma partition_is_Some sep s :
  (0 < count sep s)%nat → ∃ a b, partition sep s = Some (a, b).
Proof.
  induction s as [|d s IH]; cbn; [lia|]. intros Hc.
  destruct (decide (d = sep)); [eauto|].
  destruct IH as (a & b & ->); [lia|]. eauto.
Qed.

End Decoding.

(** What decodes is what [client_message] builds.  If a string decodes to
    three parts, it is these parts joined by two colons, and the first two
    hold no colon; and every string with at least two colons decodes.  So
    decoding loses nothing and fails on too few colons only. *)
Theorem decode_inverts_client_message (sent : string) :
  (∀ a b c, decode sent = Ok (a, b, c) →
     client_message a b c = sent
     ∧ count ":" a = 0%nat ∧ count ":" b = 0%nat)
  ∧ ((2 ≤ count ":" sent)%nat → ∃ a b c, decode sent = Ok (a, b, c)).
Proof.
  unfold decode. cbn [split]. split.
  - intros a b c.
    destruct (partition ":" sent) as [[a' r]|] eqn:Hp1; [|done].
    destruct (partition ":" r) as [[b' c']|] eqn:Hp2; [|done].
    cbn. intros [= -> -> ->].
    apply partition_Some_inv in Hp1 as [-> Ha].
    apply partition_Some_inv in Hp2 as [-> Hb]. done.
  - intros Hc.
    destruct (partition_is_Some ":" sent) as (a & r & Hp1); [lia|].
    rewrite Hp1. pose proof (partition_Some _ _ _ _ Hp1) as Hr.
    destruct (partition_is_Some ":" r) as (b & c & Hp2); [lia|].
    rewrite Hp2. by exists a, b, c.
Qed.

Lemma decode_inverts_client_message_witness :
  (client_message "BOARD" "PRIMARY" "x:y" = "BOARD:PRIMARY:x:y"
   ∧ count ":" "BOARD" = 0%nat ∧ count ":" "PRIMARY" = 0%nat)
  ∧ ∃ a b c, decode "::" = Ok (a, b, c).
Proof.
  split.
  - apply (proj1 (decode_inverts_client_message "BOARD:PRIMARY:x:y")).
    reflexivity.
  - apply (proj2 (decode_inverts_client_message "::")). vm_compute. lia.
Defined.

(** ** The receive loop *)

Section Receive.

Implicit Types (incoming rest : list recv) (data chunks : list string)
  (total max : Z) (b : string).

Lemma append_cons (c : ascii) (s1 s2 : string) :
  String c s1 +:+ s2 = String c (s1 +:+ s2).
Proof. reflexivity. Qed.

Lemma length_append (s1 s2 : string) :
  String.length (s1 +:+ s2) = (String.length s1 + String.length s2)%nat.
Proof.
  induction s1 as [|c s1 IH]; [done|].
  rewrite append_cons. simpl. by rewrite IH.
Qed.

Lemma append_assoc (s1 s2 s3 : string) :
  (s1 +:+ s2) +:+ s3 = s1 +:+ (s2 +:+ s3).
Proof.
  induction s1 as [|c s1 IH]; [done|]. by rewrite !append_cons, IH.
Qed.

Lemma append_empty_r (s : string) : s +:+ "" = s.
Proof.
  induction s as [|c s IH]; [done|]. by rewrite append_cons, IH.
Qed.

Lemma join_app data1 data2 : join (data1 ++ data2) = join data1 +:+ join data2.
Proof.
  unfold join. induction data1 as [|t data1 IH]; simpl; [done|].
  by rewrite IH, append_assoc.
Qed.

Lemma length_join_snoc data b :
  Z.of_nat (String.length (join (data ++ [b])))
  = Z.of_nat (String.length (join data)) + Z.of_nat (String.length b).
Proof.
  rewrite join_app, length_append. unfold join at 2. simpl.
  rewrite append_empty_r. lia.
Qed.

(** Chunks that decode and fit are taken one after the other. *)
Lemma recv_loop_app max chunks rest data total :
  Forall (λ b, b ≠ "" ∧ utf8_ok b = true) chunks →
  total + Z.of_nat (String.length (join chunks)) ≤ max →
  recv_loop max (map Data chunks ++ rest) data total
  = recv_loop max rest (data ++ chunks)
      (total + Z.of_nat (String.length (join chunks))).
Proof.
  intros Hok. revert data total.
  induction Hok as [|b chunks [Hb Hutf] Hok IH]; intros data total Hfit.
  - cbn. by rewrite app_nil_r, Z.add_0_r.
  - cbn [map app recv_loop]. destruct b as [|c b]; [done|].
    unfold decode_utf8. rewrite Hutf.
    change (join (String c b :: chunks)) with (String c b +:+ join chunks)
      in *.
    rewrite length_append in *.
    destruct (Z.gtb_spec (total + Z.of_nat (String.length (String c b))) max)
      as [Hgt|Hle]; [lia|].
    rewrite IH by lia. rewrite <- app_assoc. cbn [app]. f_equal. lia.
Qed.

(** The loop's bound, with its variables: what has been taken so far is
    within [max], and a chunk has at most 8192 bytes. *)
Lemma recv_loop_bound max incoming data0 data :
  Z.of_nat (String.length (join data0)) ≤ max →
  (∀ b, Data b ∈ incoming → Z.of_nat (String.length b) ≤ 8192) →
  recv_loop max incoming data0 (Z.of_nat (String.length (join data0)))
    = Ok data →
  Z.of_nat (String.length (join data)) ≤ max + 8192
  ∧ ∃ more, data = data0 ++ more
            ∧ map Data more `prefix_of` incoming.
Proof.
  revert data0. induction incoming as [|r incoming IH]; intros data0 H0 Hsz.
  - cbn. intros [= <-]. split; [lia|]. exists []. by rewrite app_nil_r.
  - destruct r as [b|]; cbn [recv_loop].
    2:{ intros [= <-]. split; [lia|]. exists [].
        rewrite app_nil_r. split; [done | apply prefix_nil]. }
    destruct b as [|c b].
    { intros [= <-]. split; [lia|]. exists [].
      rewrite app_nil_r. split; [done | apply prefix_nil]. }
    unfold decode_utf8. destruct (utf8_ok (String c b)); [|done].
    assert (Z.of_nat (String.length (String c b)) ≤ 8192) as Hb
      by (apply Hsz, list_elem_of_here).
    rewrite <- length_join_snoc.
    destruct (Z.gtb_spec (Z.of_nat (String.length
                            (join (data0 ++ [String c b])))) max)
      as [Hgt|Hle].
    + intros [= <-]. rewrite length_join_snoc. split; [lia|].
      exists [String c b]. split; [done|]. cbn. apply prefix_cons, prefix_nil.
    + intros Hrun. apply IH in Hrun as [Hbound (more & -> & Hpre)]; [|done|].
      * split; [done|]. exists (String c b :: more).
        rewrite <- app_assoc. split; [done|]. cbn. by apply prefix_cons.
      * intros b' Hb'. apply Hsz. by apply list_elem_of_further.
Qed.

End Receive.

(** A message that fits is received whole.  When the client's bytes arrive
    in chunks that are not empty and are well-formed UTF-8 each, with no more
    than [max_input] bytes in all, and then the peer closes, an error occurs
    or nothing more is pending, the loop gives back exactly these chunks. *)
Theorem recv_loop_whole (max : Z) (chunks : list string) (rest : list recv) :
  Forall (λ b, b ≠ "" ∧ utf8_ok b = true) chunks →
  Z.of_nat (String.length (join chunks)) ≤ max →
  rest = [] ∨ (∃ r, rest = Data "" :: r) ∨ (∃ r, rest = Fail :: r) →
  recv_loop max (map Data chunks ++ rest) [] 0 = Ok chunks.
Proof.
  intros Hok Hfit Hrest. rewrite recv_loop_app by done. cbn [app].
  destruct Hrest as [->|[[r ->]|[r ->]]]; reflexivity.
Qed.

Lemma recv_loop_whole_witness :
  recv_loop 50000 (map Data ["BOARD:PRIM"; "ARY:hello"] ++ [Data ""]) [] 0
  = Ok ["BOARD:PRIM"; "ARY:hello"].
Proof.
  apply recv_loop_whole.
  - repeat constructor; discriminate.
  - vm_compute. discriminate.
  - right. left. by eexists.
Defined.

(** The loop stops soon after [max_input].  With a limit that is not
    negative and chunks of at most 8192 bytes, as [conn.recv(8192)] gives
    them, what the loop returns has at most [max_input + 8192] bytes, and it
    is made of the first chunks that came, in their order. *)
Theorem recv_loop_bounded (max : Z) (incoming : list recv)
    (data : list string) :
  0 ≤ max →
  (∀ b, Data b ∈ incoming → Z.of_nat (String.length b) ≤ 8192) →
  recv_loop max incoming [] 0 = Ok data →
  Z.of_nat (String.length (join data)) ≤ max + 8192
  ∧ map Data data `prefix_of` incoming.
Proof.
  intros Hmax Hsz Hrun.
  destruct (recv_loop_bound max incoming [] data) as [Hb (more & -> & Hpre)];
    auto.
Qed.

Lemma recv_loop_bounded_witness :
  Z.of_nat (String.length (join ["BOARD"])) ≤ 4 + 8192
  ∧ map Data ["BOARD"] `prefix_of` [Data "BOARD"; Data ":PRIMARY:x"].
Proof.
  apply (recv_loop_bounded 4 [Data "BOARD"; Data ":PRIMARY:x"] ["BOARD"]).
  - lia.
  - intros b Hb.
    apply elem_of_cons in Hb as [[= ->]|Hb]; [vm_compute; discriminate|].
    apply elem_of_cons in Hb as [[= ->]|Hb]; [vm_compute; discriminate|].
    by apply elem_of_nil in Hb.
  - reflexivity.
Defined.

(** ** Messages and what [socket_listen] does with them *)

Section Dispatch.

Variable cfg : config.
Implicit Types (st : state) (incoming : list recv) (data : list string)
  (board content sig : string).

(** A message that decodes, up to the dispatch on its action. *)
Lemma socket_listen_decoded st incoming data sig board content :
  recv_loop (max_input cfg) incoming [] 0 = Ok data →
  data ≠ [] →
  decode (join data) = Ok (sig, board, content) →
  socket_listen cfg incoming st =
    ((if decide (sig = "SELECT") then selection_widget board
      else if decide (sig = "BOARD")
           then match content with
                | EmptyString => ret tt
                | _ => update_board board content
                end
           else ret tt);; emit ConnClose;; ret true) st.
Proof.
  intros Hrecv Hdata Hdec. unfold socket_listen at 1.
  unfold mbind, M_bind, bind, lift. rewrite Hrecv.
  destruct data as [|t data]; [done|]. by rewrite Hdec.
Qed.

Lemma decode_nonempty data sig board content :
  decode (join data) = Ok (sig, board, content) → data ≠ [].
Proof. by intros Hdec ->. Qed.

Lemma update_board_primary st board content :
  lower board = "primary" →
  update_board board content st
  = (Ok tt, with_self (set_primary (Some content)) st).
Proof. intros Hb. unfold update_board. by rewrite decide_True. Qed.

Lemma update_board_clipboard st board content :
  lower board = "clipboard" →
  update_board board content st
  = (Ok tt, with_self (set_clipboard (Some content)) st).
Proof.
  intros Hb. unfold update_board. rewrite Hb.
  rewrite decide_False by done. by rewrite decide_True.
Qed.

Lemma update_board_other st board content :
  lower board ≠ "primary" → lower board ≠ "clipboard" →
  update_board board content st = (Raise AttributeError, st).
Proof.
  intros H1 H2. unfold update_board. by rewrite !decide_False.
Qed.

End Dispatch.

(** Whatever arrives, [socket_listen] does not change a history, a file or
    the listening socket, whether it returns or raises. *)
Theorem socket_listen_leaves_history (cfg : config) (incoming : list recv)
    (st : state) :
  boards (self (snd (socket_listen cfg incoming st))) = boards (self st)
  ∧ files (os (snd (socket_listen cfg incoming st))) = files (os st)
  ∧ sock_s (self (snd (socket_listen cfg incoming st))) = sock_s (self st).
Proof.
  unfold socket_listen. unfold_M.
  destruct (recv_loop (max_input cfg) incoming [] 0) as [data|e]; [|done].
  destruct data as [|t data]; [done|].
  destruct (decode (join (t :: data))) as [[[sig board] content]|e]; [|done].
  cbn. destruct (decide (sig = "SELECT")).
  - unfold selection_widget, getitem_boards. run_M.
    by destruct (boards (self st) !! board).
  - destruct (decide (sig = "BOARD")); [|done].
    destruct content as [|c content]; [done|].
    unfold update_board. run_M.
    by repeat (case_decide; [done|]).
Qed.

(** A [BOARD] message with a content sets the clipboard it names, in any
    mix of upper and lower case, to the content as it is; the other
    clipboard and everything else stay, the connection is closed and the
    handler returns [True]. *)
Theorem board_message_sets_clipboard (cfg : config) (st : state)
    (incoming : list recv) (data : list string) (board content : string) :
  recv_loop (max_input cfg) incoming [] 0 = Ok data →
  join data = client_message "BOARD" board content →
  count ":" board = 0%nat →
  content ≠ "" →
  (lower board = "primary" →
   socket_listen cfg incoming st
   = (Ok true, closed (with_self (set_primary (Some content)) st)))
  ∧ (lower board = "clipboard" →
     socket_listen cfg incoming st
     = (Ok true, closed (with_self (set_clipboard (Some content)) st))).
Proof.
  intros Hrecv Hjoin Hboard Hcontent.
  assert (decode (join data) = Ok ("BOARD", board, content)) as Hdec
    by (rewrite Hjoin; by apply decode_client_message).
  rewrite (socket_listen_decoded cfg st _ _ _ _ _ Hrecv
             (decode_nonempty _ _ _ _ Hdec) Hdec).
  rewrite decide_False by done. rewrite decide_True by done.
  destruct content as [|c content]; [done|].
  unfold mbind, M_bind, bind. split; intros Hb.
  - by rewrite update_board_primary.
  - by rewrite update_board_clipboard.
Qed.

Lemma board_message_sets_clipboard_witness :
  socket_listen cfg0 [Data "BOARD:Clip"; Data "Board:a:b"; Data ""]
    (running abc_boards)
  = (Ok true,
     closed (with_self (set_clipboard (Some "a:b")) (running abc_boards))).
Proof.
  apply (proj2 (board_message_sets_clipboard cfg0 (running abc_boards)
                  [Data "BOARD:Clip"; Data "Board:a:b"; Data ""]
                  ["BOARD:Clip"; "Board:a:b"] "ClipBoard" "a:b"
                  eq_refl eq_refl eq_refl ltac:(discriminate))).
  reflexivity.
Defined.

(** Messages that are let pass.  A connection that sent nothing, a [BOARD]
    message with an empty content and a message with any action other than
    [SELECT] and [BOARD] change nothing: the connection is closed and the
    handler returns [True]. *)
Theorem socket_listen_ignores (cfg : config) (st : state)
    (incoming : list recv) (data : list string) :
  recv_loop (max_input cfg) incoming [] 0 = Ok data →
  data = []
  ∨ (∃ board, decode (join data) = Ok ("BOARD", board, ""))
  ∨ (∃ sig board content,
       decode (join data) = Ok (sig, board, content)
       ∧ sig ≠ "SELECT" ∧ sig ≠ "BOARD") →
  socket_listen cfg incoming st = (Ok true, closed st).
Proof.
  intros Hrecv [->|[(board & Hdec)|(sig & board & content & Hdec & H1 & H2)]].
  - unfold socket_listen. unfold_M. by rewrite Hrecv.
  - rewrite (socket_listen_decoded cfg st _ _ _ _ _ Hrecv
               (decode_nonempty _ _ _ _ Hdec) Hdec).
    rewrite decide_False by done. by rewrite decide_True.
  - rewrite (socket_listen_decoded cfg st _ _ _ _ _ Hrecv
               (decode_nonempty _ _ _ _ Hdec) Hdec).
    by rewrite !decide_False.
Qed.

Lemma socket_listen_ignores_witness :
  socket_listen cfg0 [Data "PASTE:PRIMARY:x"] (running abc_boards)
  = (Ok true, closed (running abc_boards)).
Proof.
  apply (socket_listen_ignores cfg0 (running abc_boards)
           [Data "PASTE:PRIMARY:x"] ["PASTE:PRIMARY:x"] eq_refl).
  right. right. exists "PASTE", "PRIMARY", "x".
  split; [reflexivity|]. split; discriminate.
Defined.

(** A message for a board that is not there.  [SELECT] with a board that has
    no history raises [KeyError], after [self.window] has been replaced by a
    new, empty dialog that is not shown; [BOARD] with a content and a board
    that is neither clipboard raises [AttributeError].  In both cases the
    handler is left before the connection is closed. *)
Theorem unknown_board_raises (cfg : config) (st : state)
    (incoming : list recv) (data : list string) (board content : string) :
  recv_loop (max_input cfg) incoming [] 0 = Ok data →
  (decode (join data) = Ok ("SELECT", board, content) →
   boards (self st) !! board = None →
   socket_listen cfg incoming st
   = (Raise (KeyError board),
      with_self (set_window (Some empty_dialog)) st))
  ∧ (decode (join data) = Ok ("BOARD", board, content) →
     content ≠ "" →
     lower board ≠ "primary" → lower board ≠ "clipboard" →
     socket_listen cfg incoming st = (Raise AttributeError, st)).
Proof.
  intros Hrecv. split.
  - intros Hdec Hnone.
    rewrite (socket_listen_decoded cfg st _ _ _ _ _ Hrecv
               (decode_nonempty _ _ _ _ Hdec) Hdec).
    rewrite decide_True by done.
    unfold selection_widget, getitem_boards. run_M. by rewrite Hnone.
  - intros Hdec Hcontent H1 H2.
    rewrite (socket_listen_decoded cfg st _ _ _ _ _ Hrecv
               (decode_nonempty _ _ _ _ Hdec) Hdec).
    rewrite decide_False by done. rewrite decide_True by done.
    destruct content as [|c content]; [done|].
    unfold mbind, M_bind, bind. by rewrite update_board_other.
Qed.

Lemma unknown_board_raises_witness :
  socket_listen cfg0 [Data "SELECT:SECONDARY:"] (running abc_boards)
  = (Raise (KeyError "SECONDARY"),
     with_self (set_window (Some empty_dialog)) (running abc_boards))
  ∧ socket_listen cfg0 [Data "BOARD:SECONDARY:x"] (running abc_boards)
    = (Raise AttributeError, running abc_boards).
Proof.
  split.
  - apply (proj1 (unknown_board_raises cfg0 (running abc_boards)
                    [Data "SELECT:SECONDARY:"] ["SELECT:SECONDARY:"]
                    "SECONDARY" "" eq_refl)); reflexivity.
  - apply (proj2 (unknown_board_raises cfg0 (running abc_boards)
                    [Data "BOARD:SECONDARY:x"] ["BOARD:SECONDARY:x"]
                    "SECONDARY" "x" eq_refl));
      [reflexivity | discriminate..].
Defined.

(** Bytes that do not decode.  When, after chunks that were taken, a chunk
    comes that is not well-formed UTF-8 on its own (a character cut in two
    by the chunk's end is enough), [socket_listen] raises
    [UnicodeDecodeError]: nothing is dispatched and the connection is not
    closed. *)
Theorem undecodable_chunk_raises (cfg : config) (st : state)
    (chunks : list string) (bad : string) (rest : list recv) :
  Forall (λ b, b ≠ "" ∧ utf8_ok b = true) chunks →
  Z.of_nat (String.length (join chunks)) ≤ max_input cfg →
  bad ≠ "" →
  utf8_ok bad = false →
  socket_listen cfg (map Data chunks ++ Data bad :: rest) st
  = (Raise UnicodeDecodeError, st).
Proof.
  intros Hok Hfit Hbad Hutf. unfold socket_listen. unfold_M.
  rewrite recv_loop_app by done. cbn [recv_loop].
  destruct bad as [|c bad]; [done|].
  unfold decode_utf8. by rewrite Hutf.
Qed.

Lemma undecodable_chunk_raises_witness :
  socket_listen cfg0
    (map Data ["BOARD:PRIMARY:"]
     ++ Data ("caf" +:+ String (ascii_of_nat 195) "")
        :: [Data (String (ascii_of_nat 169) "")])
    (running abc_boards)
  = (Raise UnicodeDecodeError, running abc_boards).
Proof.
  apply undecodable_chunk_raises.
  - repeat constructor; discriminate.
  - vm_compute. discriminate.
  - discriminate.
  - reflexivity.
Defined.

(** From the command line to the clipboard.  With [--primary] or
    [--clipboard] and without [--select], the text on the client's standard
    input, if it is not empty, ends as the text of that clipboard in the
    daemon, whole, colons and newlines included, when the message comes in
    well-formed chunks of no more than [max_input] bytes in all before the
    client closes.  [--primary] wins over [--clipboard]. *)
Theorem client_text_reaches_clipboard (cfg : config) (st : state)
    (configured : string) (a : args) (stdin : string)
    (chunks : list string) :
  opt_select a = false →
  opt_primary a = true ∨ opt_clipboard a = true →
  stdin ≠ "" →
  Forall (λ b, b ≠ "" ∧ utf8_ok b = true) chunks →
  join chunks = main_message configured a stdin →
  Z.of_nat (String.length (join chunks)) ≤ max_input cfg →
  socket_listen cfg (map Data chunks ++ [Data ""]) st
  = (Ok true,
     closed (with_self (if opt_primary a then set_primary (Some stdin)
                        else set_clipboard (Some stdin)) st)).
Proof.
  intros Hsel Hflag Hstdin Hok Hjoin Hfit.
  assert (recv_loop (max_input cfg) (map Data chunks ++ [Data ""]) [] 0
          = Ok chunks) as Hrecv.
  { rewrite recv_loop_app by done. reflexivity. }
  unfold main_message in Hjoin. rewrite Hsel in Hjoin.
  destruct (opt_primary a) eqn:Hp.
  - assert (decode (join chunks) = Ok ("BOARD", "PRIMARY", stdin)) as Hdec
      by (rewrite Hjoin; by apply decode_client_message).
    rewrite (socket_listen_decoded cfg st _ _ _ _ _ Hrecv
               (decode_nonempty _ _ _ _ Hdec) Hdec).
    rewrite decide_False by done. rewrite decide_True by done.
    destruct stdin as [|c stdin]; [done|].
    unfold mbind, M_bind, bind. by rewrite update_board_primary.
  - destruct Hflag as [?|Hc]; [done|]. rewrite Hc in Hjoin.
    assert (decode (join chunks) = Ok ("BOARD", "CLIPBOARD", stdin)) as Hdec
      by (rewrite Hjoin; by apply decode_client_message).
    rewrite (socket_listen_decoded cfg st _ _ _ _ _ Hrecv
               (decode_nonempty _ _ _ _ Hdec) Hdec).
    rewrite decide_False by done. rewrite decide_True by done.
    destruct stdin as [|c stdin]; [done|].
    unfold mbind, M_bind, bind. by rewrite update_board_clipboard.
Qed.

Lemma client_text_reaches_clipboard_witness :
  socket_listen cfg0 (map Data ["BOARD:PRIMARY:to: you"] ++ [Data ""])
    (running abc_boards)
  = (Ok true,
     closed (with_self (set_primary (Some "to: you")) (running abc_boards))).
Proof.
  apply (client_text_reaches_clipboard cfg0 (running abc_boards) "CLIPBOARD"
           {| opt_primary := true; opt_clipboard := true;
              opt_select := false |} "to: you" ["BOARD:PRIMARY:to: you"]).
  - reflexivity.
  - by left.
  - discriminate.
  - repeat constructor; discriminate.
  - reflexivity.
  - vm_compute. discriminate.
Defined.

(** ** The PID file's text *)

Section PidText.

Implicit Types (s : string) (x : N) (z : Z) (c : ascii).

Lemma digit_not_space c : is_digit c = true → is_space c = false.
Proof.
  unfold is_digit, is_space. intros H.
  apply andb_true_iff in H as [H1%Nat.leb_le H2%Nat.leb_le].
  apply orb_false_iff. split.
  - apply andb_false_iff. right. apply Nat.leb_gt. lia.
  - apply Nat.eqb_neq. lia.
Qed.

Lemma lstrip_no_space s : all_chars (λ c, negb (is_space c)) s = true → lstrip s = s.
Proof.
  destruct s as [|c s]; [done|]. cbn.
  intros [Hc _]%andb_true_iff. by destruct (is_space c).
Qed.

Lemma rstrip_no_space s : all_chars (λ c, negb (is_space c)) s = true → rstrip s = s.
Proof.
  induction s as [|c s IH]; [done|]. cbn.
  intros [Hc Hs]%andb_true_iff. rewrite IH by done.
  destruct s; [|done]. by destruct (is_space c).
Qed.

Lemma all_chars_impl (p q : ascii → bool) s :
  (∀ c, p c = true → q c = true) →
  all_chars p s = true → all_chars q s = true.
Proof.
  intros Hpq. induction s as [|c s IH]; [done|]. cbn.
  intros [Hc Hs]%andb_true_iff. by rewrite (Hpq c Hc), IH.
Qed.

Lemma pretty_N_char_digit x :
  (x < 10)%N →
  is_digit (pretty_N_char x) = true
  ∧ Z.of_nat (nat_of_ascii (pretty_N_char x)) - 48 = Z.of_N x.
Proof.
  intros Hx.
  assert (x = 0 ∨ x = 1 ∨ x = 2 ∨ x = 3 ∨ x = 4 ∨ x = 5 ∨ x = 6 ∨ x = 7
          ∨ x = 8 ∨ x = 9)%N as Hcases by lia.
  repeat (destruct Hcases as [->|Hcases]; [by vm_compute|]).
  subst. by vm_compute.
Qed.

Lemma pretty_N_go_digits x s :
  all_chars is_digit s = true → all_chars is_digit (pretty_N_go x s) = true.
Proof.
  revert s. induction (N.lt_wf_0 x) as [x _ IH]; intros s Hs.
  assert (x = 0 ∨ 0 < x)%N as [->|Hpos] by lia; [done|].
  rewrite pretty_N_go_step by done. apply IH; [by apply N.div_lt|].
  cbn. rewrite Hs, andb_true_r.
  apply pretty_N_char_digit, N.mod_lt. lia.
Qed.

Lemma pretty_N_go_value x s :
  digits 0 (pretty_N_go x s) = digits (Z.of_N x) s.
Proof.
  revert s. induction (N.lt_wf_0 x) as [x _ IH]; intros s.
  assert (x = 0 ∨ 0 < x)%N as [->|Hpos] by lia; [done|].
  rewrite pretty_N_go_step by done. rewrite IH by (by apply N.div_lt).
  destruct (pretty_N_char_digit (x `mod` 10)) as [Hd Hv];
    [apply N.mod_lt; lia|].
  cbn [digits]. rewrite Hd, Hv. f_equal.
  rewrite (N.div_mod x 10) at 3 by done. lia.
Qed.

Lemma pretty_N_go_nonempty x s : (0 < x)%N ∨ s ≠ "" → pretty_N_go x s ≠ "".
Proof.
  revert s. induction (N.lt_wf_0 x) as [x _ IH]; intros s Hor.
  assert (x = 0 ∨ 0 < x)%N as [->|Hpos] by lia.
  - rewrite pretty_N_go_0. destruct Hor as [?|?]; [lia|done].
  - rewrite pretty_N_go_step by done. apply IH; [by apply N.div_lt|].
    by right.
Qed.

(** A text of digits, not empty, reads as the number its digits give. *)
Lemma py_int_digits s z :
  s ≠ "" → all_chars is_digit s = true → digits 0 s = Some z →
  py_int s = Ok z.
Proof.
  intros Hne Hd Hv. unfold py_int.
  assert (all_chars (λ c, negb (is_space c)) s = true) as Hns.
  { apply (all_chars_impl is_digit); [|done].
    intros c Hc. by rewrite digit_not_space. }
  rewrite lstrip_no_space, rstrip_no_space by done.
  destruct s as [|c s]; [done|].
  cbn in Hd. apply andb_true_iff in Hd as [Hc _].
  destruct c as [[] [] [] [] [] [] [] []]; try discriminate Hc;
    cbn in Hv |- *; by rewrite Hv.
Qed.

(** [int(str(pid))] is [pid], for the process ids there are. *)
Lemma py_int_pretty z : 0 ≤ z → py_int (pretty z) = Ok z.
Proof.
  intros Hz. destruct z as [|p|p]; [done| |lia].
  unfold pretty, pretty_Z, pretty, pretty_positive, pretty, pretty_N.
  rewrite decide_False by done.
  apply py_int_digits.
  - apply pretty_N_go_nonempty. left. lia.
  - by apply pretty_N_go_digits.
  - by rewrite pretty_N_go_value.
Qed.

End PidText.

(** ** Starting and stopping *)

Section Startup.

Variable cfg : config.
Implicit Types (st : state) (path : string).

Lemma open_w_run path content st :
  path ∉ denied (os st) →
  files (os st) !! path ≠ Some FDir →
  files (os st) !! path ≠ Some FSocket →
  open_w path content st =
    (Ok tt,
     {| self := self st;
        os := set_files (<[path := content]> (files (os st)))
                (set_trace (trace (os st) ++ [SysOpenW path]) (os st)) |}).
Proof.
  intros Hden Hdir Hsock. unfold open_w, guard_denied. run_M.
  rewrite decide_False by done. cbn.
  destruct (files (os st) !! path) as [[]|]; done.
Qed.

Lemma check_pid_file_absent st :
  files (os st) !! pid_file cfg = None →
  check_pid_file cfg st =
    (Ok tt,
     {| self := self st;
        os := set_trace (trace (os st) ++ [SysOpenR (pid_file cfg)])
                (os st) |}).
Proof.
  intros Hf. unfold check_pid_file, open_r, guard_denied, on_OSError. run_M.
  destruct (decide (pid_file cfg ∈ denied (os st))); cbn; [done|].
  by rewrite Hf.
Qed.

Lemma check_pid_file_stale st s pid :
  pid_file cfg ∉ denied (os st) →
  files (os st) !! pid_file cfg = Some (FText s) →
  py_int s = Ok pid →
  c_int pid = true →
  procs (os st) !! pid ≠ Some Own →
  check_pid_file cfg st =
    (Ok tt,
     {| self := self st;
        os := set_files (delete (pid_file cfg) (files (os st)))
                (set_trace
                   (trace (os st)
                    ++ [SysOpenR (pid_file cfg); SysKill pid;
                        SysUnlink (pid_file cfg)])
                   (os st)) |}).
Proof.
  intros Hden Hf Hint Hfit Hdead.
  unfold check_pid_file, open_r, unlink, guard_denied, kill0, on_OSError.
  run_M. rewrite decide_False by done. cbn. rewrite Hf, Hint. cbn.
  rewrite Hfit. cbn.
  destruct (procs (os st) !! pid) as [[]|]; [done|..]; cbn;
    rewrite decide_False by done; cbn; rewrite Hf;
    by rewrite <- !app_assoc.
Qed.

(** [try: os.makedirs(path)  except OSError ...] goes on in any case and
    touches no other path. *)
Lemma makedirs_swallowed path st :
  ∃ st',
    try_except (makedirs path) (on_OSError (λ _, ret tt)) st = (Ok tt, st')
    ∧ self st' = self st
    ∧ denied (os st') = denied (os st)
    ∧ procs (os st') = procs (os st)
    ∧ getpid (os st') = getpid (os st)
    ∧ (∀ p, p ≠ path → files (os st') !! p = files (os st) !! p).
Proof.
  unfold makedirs, guard_denied, on_OSError. run_M.
  destruct (decide (path ∈ denied (os st))); cbn; [by eexists|].
  destruct (files (os st) !! path); cbn; eexists;
    (split; [reflexivity|]); cbn; repeat split; auto.
  intros p Hp. by rewrite lookup_insert_ne.
Qed.

(** [try: os.unlink(path)  except OSError ...], likewise. *)
Lemma unlink_swallowed path st :
  ∃ st',
    try_except (unlink path) (on_OSError (λ _, ret tt)) st = (Ok tt, st')
    ∧ self st' = self st
    ∧ denied (os st') = denied (os st)
    ∧ procs (os st') = procs (os st)
    ∧ getpid (os st') = getpid (os st)
    ∧ (∀ p, p ≠ path → files (os st') !! p = files (os st) !! p)
    ∧ (path ∉ denied (os st) → files (os st) !! path ≠ Some FDir →
       files (os st') !! path = None).
Proof.
  unfold unlink, guard_denied, on_OSError. run_M.
  destruct (decide (path ∈ denied (os st))); cbn;
    [eexists; split; [reflexivity|]; by repeat split|].
  destruct (files (os st) !! path) as [f|] eqn:Hf; cbn.
  - destruct f; cbn; eexists; (split; [reflexivity|]); cbn;
      repeat split; auto;
      try (intros p Hp; by rewrite lookup_delete_ne);
      try (intros; apply lookup_delete_eq); try done.
  - eexists. split; [reflexivity|]. by repeat split.
Qed.

(** Loading the history file that is absent or a JSON document. *)
Lemma read_history_file_loaded st :
  hist_file cfg ∉ denied (os st) →
  (files (os st) !! hist_file cfg = None
   ∨ ∃ snap, files (os st) !! hist_file cfg = Some (FJson snap)) →
  read_history_file cfg st =
    (Ok tt,
     {| self := set_boards (loaded cfg (os st) (boards (self st))) (self st);
        os := set_trace (trace (os st) ++ [SysOpenR (hist_file cfg)])
                (os st) |}).
Proof.
  intros Hden [Hf|[snap Hf]].
  - unfold read_history_file, open_r, guard_denied, on_OSError, loaded. run_M.
    rewrite decide_False by done. cbn. rewrite Hf. cbn.
    by destruct (self st).
  - rewrite (read_history_file_run cfg st snap) by done.
    unfold loaded. by rewrite Hf.
Qed.

Lemma sock_bind_run path st :
  path ∉ denied (os st) →
  files (os st) !! path = None →
  sock_bind path st =
    (Ok tt,
     {| self := set_sock_s (Some {| bound := Some path; listening := false |})
                  (self st);
        os := set_files (<[path := FSocket]> (files (os st)))
                (set_trace (trace (os st) ++ [SysBind path]) (os st)) |}).
Proof.
  intros Hden Hf. unfold sock_bind, guard_denied. run_M.
  rewrite decide_False by done. cbn. by rewrite Hf.
Qed.

(** [prepare_files] once the check of the PID file has let it pass and the
    PID file is not there (any more). *)
Lemma prepare_files_after_check st st1 :
  check_pid_file cfg st = (Ok tt, st1) →
  self st1 = self st →
  denied (os st1) = denied (os st) →
  procs (os st1) = procs (os st) →
  getpid (os st1) = getpid (os st) →
  files (os st1) = delete (pid_file cfg) (files (os st)) →
  can_start cfg (os st) →
  ∃ st', prepare_files cfg st = (Ok tt, st') ∧ started cfg st st'.
Proof.
  intros Hcheck Hself1 Hden1 Hprocs1 Hpid1 Hfiles1
    (Hnd & Hdpid & Hdhist & Hdsock & Hhist & Hsock).
  apply NoDup_cons in Hnd as [Hp Hnd]. apply NoDup_cons in Hnd as [Hh Hnd].
  apply NoDup_cons in Hnd as [Hs _].
  rewrite !not_elem_of_cons in Hp. rewrite !not_elem_of_cons in Hh.
  rewrite !not_elem_of_cons in Hs.
  destruct Hp as (Hph & Hps & Hpd & _). destruct Hh as (Hhs & Hhd & _).
  destruct Hs as (Hsd & _).
  unfold prepare_files. unfold mbind, M_bind, bind. rewrite Hcheck.
  unfold get_os. cbn beta iota.
  rewrite (open_w_run (pid_file cfg) _ st1);
    [|by rewrite Hden1 | rewrite Hfiles1, lookup_delete_eq; done..].
  match goal with |- context [try_except (makedirs _) _ ?s] =>
    destruct (makedirs_swallowed (clipster_dir cfg) s)
      as (stB & HrunB & HselfB & HdenB & HprocsB & HpidB & HfilesB) end.
  rewrite HrunB. cbn in HselfB, HdenB, HprocsB, HpidB, HfilesB.
  assert (files (os stB) !! hist_file cfg = files (os st) !! hist_file cfg)
    as HhistB.
  { rewrite HfilesB by done. rewrite lookup_insert_ne by done.
    rewrite Hfiles1. by rewrite lookup_delete_ne. }
  rewrite (read_history_file_loaded stB);
    [|by rewrite HdenB, Hden1 | by rewrite HhistB].
  match goal with |- context [try_except (unlink _) _ ?s] =>
    destruct (unlink_swallowed (sock_file cfg) s)
      as (stD & HrunD & HselfD & HdenD & HprocsD & HpidD & HfilesD & HgoneD)
  end.
  rewrite HrunD. cbn in HselfD, HdenD, HprocsD, HpidD, HfilesD, HgoneD.
  assert (files (os stB) !! sock_file cfg = files (os st) !! sock_file cfg)
    as HsockB.
  { rewrite HfilesB by done. rewrite lookup_insert_ne by done.
    rewrite Hfiles1. by rewrite lookup_delete_ne. }
  unfold modify_self. cbn beta iota.
  rewrite sock_bind_run; cbn;
    [| by rewrite HdenD, HdenB, Hden1
     | apply HgoneD; [by rewrite HdenB, Hden1 | by rewrite HsockB]].
  eexists. split; [reflexivity|]. unfold started. cbn.
  rewrite lookup_insert_eq. rewrite !lookup_insert_ne by done.
  rewrite !HfilesD by done. rewrite HhistB.
  rewrite HfilesB by done. rewrite lookup_insert_eq.
  rewrite HselfD. cbn. rewrite HselfB, Hself1.
  unfold loaded. rewrite HhistB, Hpid1.
  rewrite HdenD, HdenB, Hden1, HprocsD, HprocsB, Hprocs1, HpidD, HpidB.
  done.
Qed.

Lemma prepare_files_run st :
  can_start cfg (os st) →
  (files (os st) !! pid_file cfg = None
   ∨ ∃ s pid, files (os st) !! pid_file cfg = Some (FText s)
              ∧ py_int s = Ok pid ∧ c_int pid = true
              ∧ procs (os st) !! pid ≠ Some Own) →
  ∃ st', prepare_files cfg st = (Ok tt, st') ∧ started cfg st st'.
Proof.
  intros Hcan [Hf|(s & pid & Hf & Hint & Hfit & Hdead)].
  - eapply prepare_files_after_check;
      [by apply check_pid_file_absent | done.. | | done].
    cbn. by rewrite delete_id.
  - eapply prepare_files_after_check;
      [apply (check_pid_file_stale st s pid); try done; apply Hcan
      | done.. ].
Qed.

End Startup.

(** [prepare_files] starts the daemon in a directory that is there.  With
    the three files entries of [clipster_dir], that directory existing, and
    either no PID file or one that names, in plain decimal digits, a process
    that [os.kill(pid, 0)] raises [OSError] for (none is there, or one is
    there that the daemon may not signal), [prepare_files] returns: a stale
    PID file is removed, the PID file holds the daemon's own process id, the
    history file is loaded into the histories if it exists, a socket file
    left behind is replaced, and the daemon's socket is bound to the socket
    path and listening. *)
Theorem prepare_files_starts (cfg : config) (st : state) :
  can_start cfg (os st) →
  in_clipster_dir cfg (os st) →
  (files (os st) !! pid_file cfg = None
   ∨ ∃ s pid, files (os st) !! pid_file cfg = Some (FText s)
              ∧ py_int s = Ok pid ∧ c_int pid = true
              ∧ procs (os st) !! pid ≠ Some Own) →
  ∃ st', prepare_files cfg st = (Ok tt, st') ∧ started cfg st st'.
Proof. intros Hcan _. by apply prepare_files_run. Qed.

Lemma can_start_after_crash : can_start cfg0 world_after_crash.
Proof.
  split.
  { repeat (apply NoDup_cons; split;
            [rewrite ?not_elem_of_cons; repeat split;
             try discriminate; apply not_elem_of_nil|]).
    apply NoDup_nil_2. }
  split; [vm_compute; set_solver|]. split; [vm_compute; set_solver|].
  split; [vm_compute; set_solver|]. split; [by left | by vm_compute].
Qed.

Lemma in_clipster_dir_after_crash : in_clipster_dir cfg0 world_after_crash.
Proof.
  split; [reflexivity|]. split; [|split].
  - exists "clipster.pid". split; [discriminate|]. by split.
  - exists "history". split; [discriminate|]. by split.
  - exists "clipster_sock". split; [discriminate|]. by split.
Qed.

Lemma prepare_files_starts_witness :
  ∃ st',
    prepare_files cfg0 {| self := init_daemon; os := world_after_crash |}
      = (Ok tt, st')
    ∧ started cfg0 {| self := init_daemon; os := world_after_crash |} st'.
Proof.
  apply (prepare_files_starts cfg0
           {| self := init_daemon; os := world_after_crash |}).
  - exact can_start_after_crash.
  - exact in_clipster_dir_after_crash.
  - right. exists "4711", 4711. split; [reflexivity|].
    split; [reflexivity|]. split; [reflexivity | discriminate].
Defined.

(** One daemon at a time, among processes that may signal each other.  Once
    a daemon has started in its directory, [prepare_files] in any other
    process with the same configuration that may signal the first one (a
    process of the same user, say) reads the first one's process id back
    from the PID file, stops at [sys.exit(1)] and leaves every file as the
    first daemon has it. *)
Theorem second_daemon_is_refused (cfg : config) (st : state) (pid2 : Z)
    (table2 : gmap Z process) (d2 : daemon) :
  can_start cfg (os st) →
  in_clipster_dir cfg (os st) →
  (files (os st) !! pid_file cfg = None
   ∨ ∃ s pid, files (os st) !! pid_file cfg = Some (FText s)
              ∧ py_int s = Ok pid ∧ c_int pid = true
              ∧ procs (os st) !! pid ≠ Some Own) →
  0 ≤ getpid (os st) →
  c_int (getpid (os st)) = true →
  table2 !! getpid (os st) = Some Own →
  ∃ st1,
    prepare_files cfg st = (Ok tt, st1)
    ∧ ∃ st2,
        prepare_files cfg
          {| self := d2; os := as_process pid2 table2 (os st1) |}
          = (Raise (SystemExit 1), st2)
        ∧ files (os st2) = files (os st1)
        ∧ self st2 = d2.
Proof.
  intros Hcan _ Hpid Hpos Hfit Hlive.
  destruct (prepare_files_run cfg st Hcan Hpid)
    as (st1 & Hrun & Hpidf & _ & _ & _ & _ & Hden & _).
  exists st1. split; [done|]. eexists. split.
  - unfold prepare_files, mbind, M_bind, bind.
    rewrite (check_pid_file_running cfg _ (pretty (getpid (os st)))
               (getpid (os st))); cbn; try done.
    + rewrite Hden. apply Hcan.
    + by apply py_int_pretty.
  - by cbn.
Qed.

Lemma second_daemon_is_refused_witness :
  ∃ st1,
    prepare_files cfg0 {| self := init_daemon; os := world_after_crash |}
      = (Ok tt, st1)
    ∧ ∃ st2,
        prepare_files cfg0
          {| self := init_daemon;
             os := as_process 5001 (<[5000 := Own]> (<[5001 := Own]> ∅))
                     (os st1) |}
          = (Raise (SystemExit 1), st2)
        ∧ files (os st2) = files (os st1)
        ∧ self st2 = init_daemon.
Proof.
  apply (second_daemon_is_refused cfg0
           {| self := init_daemon; os := world_after_crash |} 5001
           (<[5000 := Own]> (<[5001 := Own]> ∅)) init_daemon).
  - exact can_start_after_crash.
  - exact in_clipster_dir_after_crash.
  - right. exists "4711", 4711. split; [reflexivity|].
    split; [reflexivity|]. split; [reflexivity | discriminate].
  - by vm_compute.
  - reflexivity.
  - reflexivity.
Defined.

Section Shutdown.

Variable cfg : config.
Implicit Types (st : state) (path : string).

(** The two removals of [exit], up to the writing of the history. *)
Lemma exit_removals st :
  ∃ st2,
    exit cfg st = (write_history_file cfg;; sys_exit 0) st2
    ∧ self st2 = self st
    ∧ denied (os st2) = denied (os st)
    ∧ syscalls (trace (os st2)) =
        syscalls (trace (os st))
        ++ [SysUnlink (sock_file cfg); SysUnlink (pid_file cfg)]
    ∧ (∀ p, files (os st2) !! p = files (os st) !! p
            ∨ files (os st2) !! p = None)
    ∧ (∀ p, p ≠ sock_file cfg → p ≠ pid_file cfg →
            files (os st2) !! p = files (os st) !! p)
    ∧ (∀ p, p = sock_file cfg ∨ p = pid_file cfg →
            p ∉ denied (os st) → files (os st) !! p ≠ Some FDir →
            files (os st2) !! p = None).
Proof.
  destruct (unlink_best_effort (sock_file cfg)
              ("Warning: Failed to remove socket file: " +:+ sock_file cfg) st)
    as (st1 & Hrun1 & Hself1 & Hden1 & Htr1 & Hne1 & Heq1 & Hgone1).
  destruct (unlink_best_effort (pid_file cfg)
              ("Warning: Failed to remove run file: " +:+ pid_file cfg) st1)
    as (st2 & Hrun2 & Hself2 & Hden2 & Htr2 & Hne2 & Heq2 & Hgone2).
  assert (Hkeep1 : ∀ p, files (os st1) !! p = files (os st) !! p
                        ∨ files (os st1) !! p = None).
  { intros p. destruct (decide (p = sock_file cfg)) as [->|Hp]; auto. }
  assert (Hkeep2 : ∀ p, files (os st2) !! p = files (os st1) !! p
                        ∨ files (os st2) !! p = None).
  { intros p. destruct (decide (p = pid_file cfg)) as [->|Hp]; auto. }
  exists st2. split.
  { unfold exit, mbind, M_bind, bind. by rewrite Hrun1, Hrun2. }
  split; [by rewrite Hself2|]. split; [by rewrite Hden2|].
  split; [by rewrite Htr2, Htr1, <- app_assoc|].
  split.
  { intros p. destruct (Hkeep2 p) as [E2|E2]; rewrite E2; auto. }
  split.
  { intros p Hs Hp. by rewrite Hne2, Hne1. }
  intros p Hp Hnd Hdir.
  assert (files (os st1) !! p = None → files (os st2) !! p = None) as Hstay.
  { intros E. destruct (Hkeep2 p) as [E2|E2]; by rewrite E2. }
  destruct Hp as [->| ->].
  - by apply Hstay, Hgone1.
  - apply Hgone2; [by rewrite Hden1|].
    destruct (Hkeep1 (pid_file cfg)) as [E1|E1]; by rewrite E1.
Qed.

End Shutdown.

(** When the history cannot be written.  If the system refuses the history
    file, [exit] raises the [OSError] of [open] and never reaches
    [sys.exit(0)]; by then it has already tried to remove the socket file and
    the PID file, which are gone unless the system refused, and the history
    file is as it was: what the daemon has recorded is not saved. *)
Theorem exit_without_persisting (cfg : config) (st : state) :
  hist_file cfg ∈ denied (os st) →
  hist_file cfg ≠ sock_file cfg →
  hist_file cfg ≠ pid_file cfg →
  ∃ st',
    exit cfg st = (Raise (OSError EACCES), st')
    ∧ syscalls (trace (os st')) =
        syscalls (trace (os st))
        ++ [SysUnlink (sock_file cfg); SysUnlink (pid_file cfg);
            SysOpenW (hist_file cfg)]
    ∧ files (os st') !! hist_file cfg = files (os st) !! hist_file cfg
    ∧ (∀ p, p = sock_file cfg ∨ p = pid_file cfg →
            p ∉ denied (os st) → files (os st) !! p ≠ Some FDir →
            files (os st') !! p = None).
Proof.
  intros Hden Hhs Hhp.
  destruct (exit_removals cfg st)
    as (st2 & -> & Hself & Hden2 & Htr & _ & Hother & Hgone).
  unfold write_history_file, open_w, guard_denied. run_M.
  rewrite decide_True by (by rewrite Hden2). cbn.
  eexists. split; [reflexivity|]. cbn.
  rewrite syscalls_app, Htr, <- app_assoc. split; [done|].
  split; [by apply Hother | done].
Qed.

Lemma exit_without_persisting_witness :
  ∃ st',
    exit cfg0
      {| self := set_boards abc_boards init_daemon;
         os := {| files := files world0;
                  denied := {[ "/home/u/.clipster/history" ]};
                  procs := procs world0; getpid := 4711; trace := [] |} |}
      = (Raise (OSError EACCES), st')
    ∧ syscalls (trace (os st')) =
        [SysUnlink (sock_file cfg0); SysUnlink (pid_file cfg0);
         SysOpenW (hist_file cfg0)]
    ∧ files (os st') !! hist_file cfg0 = None
    ∧ files (os st') !! sock_file cfg0 = None
    ∧ files (os st') !! pid_file cfg0 = None.
Proof.
  destruct (exit_without_persisting cfg0
              {| self := set_boards abc_boards init_daemon;
                 os := {| files := files world0;
                          denied := {[ "/home/u/.clipster/history" ]};
                          procs := procs world0; getpid := 4711;
                          trace := [] |} |})
    as (st' & Hrun & Hcalls & Hhist & Hgone).
  { apply (bool_decide_unpack _). by vm_compute. }
  { discriminate. }
  { discriminate. }
  exists st'. split; [exact Hrun|]. split; [exact Hcalls|].
  split; [exact Hhist|].
  split; apply Hgone; auto; try (by vm_compute);
    apply (bool_decide_unpack _); by vm_compute.
Defined.

Lemma dom_init_boards (b : gmap string (list string)) :
  has_selections b → dom init_boards ⊆ dom b.
Proof.
  intros Hsel. unfold init_boards. rewrite !dom_insert_L, dom_empty_L.
  pose proof (Hsel PRIMARY) as HP%elem_of_dom.
  pose proof (Hsel CLIPBOARD) as HC%elem_of_dom.
  cbn in HP, HC. apply union_subseteq. split; [by apply singleton_subseteq_l|].
  apply union_subseteq. split; [by apply singleton_subseteq_l|].
  apply empty_subseteq.
Qed.

(** The history outlives a clean restart.  After [exit] on a machine where
    the three files can be removed and written, a daemon made afresh starts
    on the files left behind, and its histories are those the old daemon had
    when it left, provided that one had a history for both selections. *)
Theorem restart_keeps_history (cfg : config) (st : state) :
  NoDup [pid_file cfg; hist_file cfg; sock_file cfg; clipster_dir cfg] →
  pid_file cfg ∉ denied (os st) →
  hist_file cfg ∉ denied (os st) →
  sock_file cfg ∉ denied (os st) →
  files (os st) !! pid_file cfg ≠ Some FDir →
  files (os st) !! sock_file cfg ≠ Some FDir →
  files (os st) !! hist_file cfg ≠ Some FDir →
  files (os st) !! hist_file cfg ≠ Some FSocket →
  has_selections (boards (self st)) →
  ∃ st1,
    exit cfg st = (Raise (SystemExit 0), st1)
    ∧ ∃ st2,
        prepare_files cfg {| self := init_daemon; os := os st1 |}
          = (Ok tt, st2)
        ∧ boards (self st2) = boards (self st)
        ∧ started cfg {| self := init_daemon; os := os st1 |} st2.
Proof.
  intros Hnd Hdp Hdh Hds Hpdir Hsdir Hhdir Hhsock Hsel.
  pose proof Hnd as Hnd'.
  apply NoDup_cons in Hnd' as [Hp Hnd']. apply NoDup_cons in Hnd' as [Hh _].
  rewrite !not_elem_of_cons in Hp. rewrite !not_elem_of_cons in Hh.
  destruct Hp as (Hph & Hps & _). destruct Hh as (Hhs & _).
  destruct (exit_removals cfg st)
    as (st' & Hexit & Hself & Hden & _ & Hkeep & Hother & Hgone).
  assert (regular (os st') (hist_file cfg)) as Hreg.
  { split; [by rewrite Hden|]. rewrite Hother by done. done. }
  unfold mbind, M_bind, bind in Hexit.
  rewrite (write_history_file_run cfg st' Hreg) in Hexit.
  eexists. split; [exact Hexit|]. cbn.
  match goal with |- ∃ st2, prepare_files cfg ?s = _ ∧ _ =>
    destruct (prepare_files_run cfg s) as (st2 & Hrun & Hstarted) end.
  - split; [done|]. cbn. rewrite Hden.
    split; [done|]. split; [done|]. split; [done|]. split.
    + right. eexists. apply lookup_insert_eq.
    + rewrite lookup_insert_ne by done. by rewrite Hgone; auto.
  - left. cbn. rewrite lookup_insert_ne by done. by apply Hgone; auto.
  - exists st2. split; [done|]. split; [|done].
    destruct Hstarted as (_ & _ & _ & _ & Hb & _). rewrite Hb.
    unfold loaded. cbn. rewrite lookup_insert_eq, Hself.
    by apply dict_update_covered, dom_init_boards.
Qed.

Lemma restart_keeps_history_witness :
  ∃ st1,
    exit cfg0 (running abc_boards) = (Raise (SystemExit 0), st1)
    ∧ ∃ st2,
        prepare_files cfg0 {| self := init_daemon; os := os st1 |}
          = (Ok tt, st2)
        ∧ boards (self st2) = abc_boards
        ∧ started cfg0 {| self := init_daemon; os := os st1 |} st2.
Proof.
  apply (restart_keeps_history cfg0 (running abc_boards)).
  - apply can_start_after_crash.
  - vm_compute; set_solver.
  - vm_compute; set_solver.
  - vm_compute; set_solver.
  - by vm_compute.
  - by vm_compute.
  - by vm_compute.
  - by vm_compute.
  - intros []; vm_compute; eauto.
Defined.

(** A history file that is missing or cannot be read is no error.  When the
    history file is absent, refused by the system, a directory or a socket,
    [read_history_file] returns with the histories and the files as they
    were: every [OSError] of [open] is dropped, not [ENOENT] alone. *)
Theorem read_history_file_without_file (cfg : config) (st : state) :
  hist_file cfg ∈ denied (os st)
  ∨ files (os st) !! hist_file cfg = None
  ∨ files (os st) !! hist_file cfg = Some FDir
  ∨ files (os st) !! hist_file cfg = Some FSocket →
  read_history_file cfg st =
    (Ok tt,
     {| self := self st;
        os := set_trace (trace (os st) ++ [SysOpenR (hist_file cfg)])
                (os st) |}).
Proof.
  intros Hcase.
  unfold read_history_file, open_r, guard_denied, on_OSError. run_M.
  destruct (decide (hist_file cfg ∈ denied (os st))) as [Hd|Hd]; cbn;
    [done|].
  destruct Hcase as [?|[Hf|[Hf|Hf]]]; [done|by rewrite Hf..].
Qed.

Lemma read_history_file_without_file_witness :
  read_history_file cfg0 (running abc_boards) =
    (Ok tt,
     {| self := self (running abc_boards);
        os := set_trace [SysOpenR (hist_file cfg0)] world0 |}).
Proof.
  apply (read_history_file_without_file cfg0 (running abc_boards)).
  right. left. reflexivity.
Defined.
